(** * NativeQuantizer: a shallow embedding of
    [mmrazor/models/quantizers/native_quantizer.py]

    The Python class drives four collaborators (the tracer, the qconfig
    resolver, the backend table and torch's FX quantization entry points)
    that are not part of the file.  They appear here as fields of interface
    classes; everything written in [native_quantizer.py] itself is a
    definition of this file and keeps its Python name. *)

From stdpp Require Import base option list strings gmap.

Set Default Proof Using "Type".
Set Warnings "-register-all".
Open Scope string_scope.
Open Scope list_scope.

(** ** Python outcomes *)

Module Py.

(** The exceptions that can leave the methods of the class. [External]
    stands for whatever a collaborator raises on its own. *)
Inductive exn : Type :=
| AssertionError
| NotImplementedError
| KeyError (key : string)
| External (what : string).

Inductive result (A : Type) : Type :=
| Ok (a : A)
| Raise (e : exn).
Arguments Ok {A} a.
Arguments Raise {A} e.

(** State-and-exception computations over a store [S]: the store that is
    current when an exception is raised is kept. *)
Definition M (S A : Type) : Type := S → result A * S.

Definition ret {S A} (a : A) : M S A := λ s, (Ok a, s).
Definition raise {S A} (e : exn) : M S A := λ s, (Raise e, s).
Definition bind {S A B} (m : M S A) (k : A → M S B) : M S B :=
  λ s, match m s with
       | (Ok a, s') => k a s'
       | (Raise e, s') => (Raise e, s')
       end.
Definition lift {S A} (r : result A) : M S A := λ s, (r, s).
Definition modify {S} (f : S → S) : M S unit := λ s, (Ok tt, f s).
Definition get {S} : M S S := λ s, (Ok s, s).

(** [assert c]: Python's [assert] statement. *)
Definition assert {S} (c : bool) : M S unit :=
  if c then ret tt else raise AssertionError.

(** [for x in xs: body x] *)
Fixpoint for_each {S A} (xs : list A) (body : A → M S unit) : M S unit :=
  match xs with
  | [] => ret tt
  | x :: xs' => bind (body x) (λ _, for_each xs' body)
  end.

End Py.

Global Instance M_ret {S} : MRet (Py.M S) := λ A, @Py.ret S A.
Global Instance M_bind {S} : MBind (Py.M S) := λ A B k m, @Py.bind S A B m k.

(** ** The QAT module classes of torch named by the file *)

(** The fifteen classes listed in [SUPPORT_QAT_MODULES]; the first eleven
    live in [torch.nn.intrinsic.qat.modules], the last four (written
    [qat_modules.Conv1d] and so on in the source) in [torch.nn.qat.modules]. *)
Inductive qat_class : Type :=
| ConvBn1d | ConvBn2d | ConvBn3d
| ConvBnReLU1d | ConvBnReLU2d | ConvBnReLU3d
| ConvReLU1d | ConvReLU2d | ConvReLU3d
| LinearBn1d | LinearReLU
| Conv1d | Conv2d | Conv3d | Linear.

(** A Python class of a module: one of the fifteen, a user subclass of some
    class, or any other class (identified by its name). *)
Inductive module_class : Type :=
| Qat (c : qat_class)
| Subclass (name : string) (base : module_class)
| Plain (name : string).

Global Instance qat_class_eq_dec : EqDecision qat_class.
Proof. solve_decision. Defined.

Global Instance module_class_eq_dec : EqDecision module_class.
Proof. solve_decision. Defined.

(** [issubclass c d] along the single-inheritance chain kept in [Subclass]. *)
Fixpoint issubclass (c d : module_class) : bool :=
  bool_decide (c = d) ||
  match c with
  | Subclass _ base => issubclass base d
  | _ => false
  end.

(** [isinstance(obj, classes)] for an object whose [type] is [c]. *)
Definition isinstance (c : module_class) (classes : list module_class) : bool :=
  existsb (issubclass c) classes.

Section Tables.

(** [digit_version(torch.__version__) >= digit_version('1.13.0')] *)
Variable torch_ge_1_13 : bool.

Definition SUPPORT_QAT_MODULES : list module_class :=
  if torch_ge_1_13 then
    [ Qat ConvBn1d; Qat ConvBn2d;
      Qat ConvBn3d; Qat ConvBnReLU1d;
      Qat ConvBnReLU2d; Qat ConvBnReLU3d;
      Qat ConvReLU1d; Qat ConvReLU2d;
      Qat ConvReLU3d; Qat LinearBn1d;
      Qat LinearReLU; Qat Conv1d; Qat Conv2d;
      Qat Conv3d; Qat Linear ]
  else [].

(** The dict literal, as the list of its items. *)
Definition MERGE_BN_MAPPINGS : list (module_class * module_class) :=
  if torch_ge_1_13 then
    [ (Qat ConvBn1d, Qat Conv1d);
      (Qat ConvBn2d, Qat Conv2d);
      (Qat ConvBn3d, Qat Conv3d);
      (Qat ConvBnReLU1d, Qat ConvReLU1d);
      (Qat ConvBnReLU2d, Qat ConvReLU2d);
      (Qat ConvBnReLU3d, Qat ConvReLU3d);
      (Qat LinearBn1d, Qat Linear) ]
  else [].

End Tables.

(** [d[k]] / [k in d] for a dict given by its items (keys are distinct
    in both literals above). *)
Fixpoint dict_get {K V} `{EqDecision K} (d : list (K * V)) (k : K) : option V :=
  match d with
  | [] => None
  | (k', v) :: d' => if decide (k = k') then Some v else dict_get d' k
  end.

(** Whether a torch QAT class keeps a batch-norm submodule of its own
    (the [bn] attribute of [ConvBn*], [ConvBnReLU*] and [LinearBn1d]). *)
Definition has_bn (c : qat_class) : bool :=
  match c with
  | ConvBn1d | ConvBn2d | ConvBn3d
  | ConvBnReLU1d | ConvBnReLU2d | ConvBnReLU3d
  | LinearBn1d => true
  | _ => false
  end.

(** ** The traced graph and the eight deletion passes

    [del_fakequant_before_module] and its seven siblings are imported from
    [mmrazor.models.task_modules.tracer.fx]; the graph they work on is
    torch's [GraphModule].  Both are described, not defined, by what the
    quantizer file shows, so this module follows the specification's
    wording of them. *)

Module Fx.

(** An entry of an exempt tuple: a module type, a callable, or a string
    (method names and operator names are strings in Python). *)
Inductive entry : Type :=
| Type_ (cls : module_class)
| Callable (f : string)
| Str (s : string).

Global Instance entry_eq_dec : EqDecision entry.
Proof. solve_decision. Defined.

(** Modelled from the spec: the graph helpers are not in the source file.
    A node of the traced graph represents "a module call, a free function
    call, a method call, or a primitive operator call"; observer insertion
    adds fake-quant nodes. *)
Inductive call : Type :=
| call_module (cls : module_class)
| call_function (f : string)
| call_method (name : string)
| primitive (op : string)
| fake_quant.

Record node : Type := Node {
  name : string;
  what : call;
  args : list string   (* names of the nodes whose values are consumed *)
}.

(** Modelled from the spec: torch's graph type is not in the source file.
    "an ordered graph of nodes ... with edges representing data
    dependencies" *)
Definition graph : Type := list node.

Inductive kind : Type := module | function | method | op.
Inductive side : Type := before | after.

Global Instance kind_eq_dec : EqDecision kind.
Proof. solve_decision. Defined.
Global Instance side_eq_dec : EqDecision side.
Proof. solve_decision. Defined.

(** Modelled from the spec: "a call matching one of the exempt entries",
    for calls of kind [k].  Module entries match as [isinstance] does. *)
Definition matches (k : kind) (patterns : list entry) (c : call) : bool :=
  match k, c with
  | module, call_module cls =>
      existsb (λ e, match e with Type_ d => issubclass cls d | _ => false end)
              patterns
  | function, call_function f => bool_decide (Callable f ∈ patterns)
  | method, call_method m => bool_decide (Str m ∈ patterns)
  | op, primitive o => bool_decide (Str o ∈ patterns)
  | _, _ => false
  end.

Definition node_at (g : graph) (a : string) : option node :=
  List.find (λ n, bool_decide (name n = a)) g.

(** The value a fake-quant node quantizes: its single argument. *)
Definition fq_input (x : node) : option string :=
  match what x, args x with
  | fake_quant, [a] => Some a
  | _, _ => None
  end.

Definition fq_source (g : graph) (a : string) : option string :=
  node_at g a ≫= fq_input.

(** Modelled from the spec: "a fake-quant node found immediately adjacent
    (on the specified side) to a call matching one of the exempt
    entries".  [redundant before k ps g a]: the node named [a] is a
    fake-quant node feeding a matching call; [redundant after k ps g a]:
    it is a fake-quant node reading the result of a matching call. *)
Definition redundant (s : side) (k : kind) (patterns : list entry)
    (g : graph) (a : string) : bool :=
  match fq_source g a with
  | None => false
  | Some b =>
      match s with
      | before =>
          existsb (λ n, matches k patterns (what n)
                        && bool_decide (a ∈ args n)) g
      | after =>
          match node_at g b with
          | Some p => matches k patterns (what p)
          | None => false
          end
      end
  end.

(** Modelled from the spec: removing the fake-quant nodes selected by
    [doomed]: every consumer of a removed node reads the removed node's
    input instead, and the removed nodes leave the graph. *)
Definition rewire (doomed : string → bool) (g : graph) (a : string) : string :=
  if doomed a then default a (fq_source g a) else a.

Definition relink (σ : string → string) (n : node) : node :=
  Node (name n) (what n) (map σ (args n)).

Definition erase (doomed : string → bool) (g : graph) : graph :=
  map (relink (rewire doomed g))
      (List.filter (λ n, negb (doomed (name n))) g).

(** Modelled from the spec: one of the eight passes, which are not in the
    source file, on a graph value: it "removes a fake-quant node found
    immediately adjacent (on the specified side) to a call matching one of
    the exempt entries". *)
Definition del_fakequant (s : side) (k : kind) (patterns : list entry)
    (g : graph) : graph :=
  erase (redundant s k patterns g) g.

(** Modelled from the spec: the invariant of a graph that went through
    observer insertion, which is torch's and not in the source file: "every
    edge entering or leaving a quantizable boundary has at most one
    fake-quant node", that is, no fake-quant node quantizes the output of
    another fake-quant node. *)
Definition single_fake_quant (g : graph) : bool :=
  forallb (λ n, match fq_input n with
                | Some b => negb (bool_decide (is_Some (fq_source g b)))
                | None => true
                end) g.

(** No fake-quant node reads another one (the propositional reading of
    [single_fake_quant]). *)
Definition unchained (g : graph) : Prop :=
  ∀ a b, fq_source g a = Some b → fq_source g b = None.

(** [doomed] selects fake-quant nodes of [g] only. *)
Definition fq_only (doomed : string → bool) (g : graph) : Prop :=
  ∀ a, doomed a = true → is_Some (fq_source g a).

(** Pass [p] finds nothing to delete in [g]. *)
Definition clean (p : side * kind * list entry) (g : graph) : Prop :=
  ∀ a, redundant p.1.1 p.1.2 p.2 g a = false.

(** A sequence of passes on a graph value. *)
Definition run (passes : list (side * kind * list entry)) (g : graph) : graph :=
  fold_left (λ g p, del_fakequant p.1.1 p.1.2 p.2 g) passes g.

(** Graph modules are objects: the passes receive a reference to one and
    an [inplace] flag. *)
Definition ref : Type := nat.

End Fx.

(** [d[k] = v] on a dict kept as the list of its items (an existing key keeps
    its place, a new key goes last, as in Python). *)
Fixpoint dict_set {K V} `{EqDecision K} (d : list (K * V)) (k : K) (v : V) :
    list (K * V) :=
  match d with
  | [] => [(k, v)]
  | (k', v') :: d' =>
      if decide (k = k') then (k', v) :: d' else (k', v') :: dict_set d' k v
  end.

(** torch's [QConfigMapping], reduced to the two tables the class writes. *)
Record QConfigMapping (QConfig : Type) : Type := {
  global_qconfig : option QConfig;
  object_type_qconfigs : list (module_class * option QConfig)
}.
Arguments global_qconfig {QConfig} _.
Arguments object_type_qconfigs {QConfig} _.

(** [QConfigMapping()] *)
Definition QConfigMapping_new {QConfig} : QConfigMapping QConfig :=
  {| global_qconfig := None; object_type_qconfigs := [] |}.

Definition set_global {QConfig} (m : QConfigMapping QConfig) (q : QConfig) :
    QConfigMapping QConfig :=
  {| global_qconfig := Some q;
     object_type_qconfigs := object_type_qconfigs m |}.

Definition set_object_type {QConfig} (m : QConfigMapping QConfig)
    (t : module_class) (q : option QConfig) : QConfigMapping QConfig :=
  {| global_qconfig := global_qconfig m;
     object_type_qconfigs := dict_set (object_type_qconfigs m) t q |}.

(** ** Module trees

    [post_process_weight_fakequant] walks an [nn.Module] hierarchy.  A module
    carries the attributes the method reads or writes: its class, [weight],
    [weight_fake_quant], [qconfig] and its named children.  Classes without a
    weight never have these fields read.  Activation fake-quant modules are
    leaves of their own.  The hierarchy is a tree: one module object
    registered under two names is not represented. *)

(** A [FakeQuantizeBase] instance: the flag [enable_fake_quant] sets, and the
    rest of its state (observer statistics, scale, zero point). *)
Record fake_quantize (FQ : Type) : Type := {
  fake_quant_enabled : bool;
  fq_state : FQ
}.
Arguments fake_quant_enabled {FQ} _.
Arguments fq_state {FQ} _.

Inductive nn_module (Tensor QConfig FQ : Type) : Type :=
| FakeQuantize (fq : fake_quantize FQ)
| Module (cls : module_class) (weight : Tensor)
    (weight_fake_quant : fake_quantize FQ) (qconfig : option QConfig)
    (children : list (string * nn_module Tensor QConfig FQ)).
Arguments FakeQuantize {Tensor QConfig FQ} fq.
Arguments Module {Tensor QConfig FQ} cls weight weight_fake_quant qconfig children.

(** [type(m)] *)
Definition type_of {T Q F} (m : nn_module T Q F) : module_class :=
  match m with
  | FakeQuantize _ => Plain "FakeQuantize"
  | Module cls _ _ _ _ => cls
  end.

Definition weight_of {T Q F} (m : nn_module T Q F) : option T :=
  match m with
  | FakeQuantize _ => None
  | Module _ w _ _ _ => Some w
  end.

Definition named_children {T Q F} (m : nn_module T Q F) :
    list (string * nn_module T Q F) :=
  match m with
  | FakeQuantize _ => []
  | Module _ _ _ _ children => children
  end.

(** ** Collaborators

    What the class imports and calls but does not define.  Functions that
    resolve user-written configuration can raise; the others are total. *)

(** The only attribute read from [qconfig.w_qscheme] / [qconfig.a_qscheme]. *)
Record QScheme : Type := { is_per_channel : bool }.

Class Collaborators : Type := {
  (** [digit_version(torch.__version__) >= digit_version('1.13.0')] *)
  torch_ge_1_13 : bool;
  (** opaque values *)
  Config : Type;          (* the [global_qconfig] dict *)
  TracerConfig : Type;    (* the [tracer] dict *)
  Tracer : Type;
  Scope : Type;           (* [tracer.node_name_to_scope] *)
  QConfig : Type;         (* torch's [QConfig], result of [convert()] *)
  BackendConfig : Type;
  Tensor : Type;
  FakeQuantState : Type;
  (** [mmrazor.structures.quantization] *)
  QConfigHander_obj : Type;
  QConfigHander : Config → Py.result QConfigHander_obj;
  w_qscheme : QConfigHander_obj → QScheme;
  a_qscheme : QConfigHander_obj → QScheme;
  convert : QConfigHander_obj → QConfig;
  BackendConfigs : gmap string BackendConfig;
  (** [BaseQuantizer.__init__], which builds [self.tracer] *)
  BaseQuantizer__init__ : TracerConfig → Py.result Tracer;
  node_name_to_scope : Tracer → Scope;
  (** [mmrazor.models.utils.str2class] *)
  str2class : list string → Py.result (list module_class);
  (** [torch.randn] *)
  randn : list nat → Tensor;
  (** [torch.ao.quantization.quantize_fx._fuse_fx] and
      [torch.ao.quantization.fx.prepare], as transformers of the graph
      modules alive in memory *)
  _fuse_fx : Fx.ref → bool → BackendConfig →
             gmap Fx.ref Fx.graph → Py.result Fx.ref * gmap Fx.ref Fx.graph;
  fx_prepare : Fx.ref → QConfigMapping QConfig →
               bool → Scope → list Tensor → BackendConfig →
               gmap Fx.ref Fx.graph → Py.result Fx.ref * gmap Fx.ref Fx.graph;
  (** [FakeQuantize.forward]: the fake-quantized tensor and the module's
      state after the call *)
  fake_quant_forward : fake_quantize FakeQuantState → Tensor →
                       Tensor * fake_quantize FakeQuantState;
  (** the [to_float()] method and the [from_float] class method of torch's
      QAT modules *)
  to_float : nn_module Tensor QConfig FakeQuantState →
             nn_module Tensor QConfig FakeQuantState;
  from_float : module_class → nn_module Tensor QConfig FakeQuantState →
               nn_module Tensor QConfig FakeQuantState
}.

Section Quantizer.

Context `{Collaborators}.

(** Modelled from the spec: how the observer-insertion step reads the
    mapping, which is torch's and not in the source file: "mapping from
    module/operator type (or global default) to a Quantization
    Configuration or None (meaning no observer attached)". *)
Definition qconfig_of (m : QConfigMapping QConfig) (t : module_class) : option QConfig :=
  match dict_get (object_type_qconfigs m) t with
  | Some q => q
  | None => global_qconfig m
  end.

(** *** The query properties *)

Definition backend {Self} (self : Self) : string := "native".
Definition support_w_modes {Self} (self : Self) : list string :=
  ["per_tensor"; "per_channel"].
Definition support_a_modes {Self} (self : Self) : list string :=
  ["per_tensor"].

Definition module_prev_wo_fakequant {Self} (self : Self) : list Fx.entry := [].
Definition module_next_wo_fakequant {Self} (self : Self) : list Fx.entry := [].
Definition function_prev_wo_fakequant {Self} (self : Self) : list Fx.entry := [].
Definition function_next_wo_fakequant {Self} (self : Self) : list Fx.entry := [].
Definition method_prev_wo_fakequant {Self} (self : Self) : list Fx.entry := [].
Definition method_next_wo_fakequant {Self} (self : Self) : list Fx.entry := [].
Definition op_prev_wo_fakequant {Self} (self : Self) : list Fx.entry := [].
Definition op_next_wo_fakequant {Self} (self : Self) : list Fx.entry := [].

(** *** Construction *)

(** The instance while [__init__] runs: an attribute is [None] until the
    statement that assigns it has run. *)
Record attrs : Type := Attrs {
  a_tracer : option Tracer;
  a_qconfig : option QConfigHander_obj;
  a_qconfig_mapping : option (QConfigMapping QConfig);
  a_no_observer_modules : option (option (list module_class));
  a_backend_config : option BackendConfig;
  a_example_inputs : option (list Tensor);
  a_extra_redundant_fakequants : option (gmap string (list Fx.entry))
}.

Definition blank : attrs := Attrs None None None None None None None.

Definition set_tracer v (s : attrs) : attrs :=
  Attrs (Some v) (a_qconfig s) (a_qconfig_mapping s) (a_no_observer_modules s)
        (a_backend_config s) (a_example_inputs s) (a_extra_redundant_fakequants s).
Definition set_qconfig v (s : attrs) : attrs :=
  Attrs (a_tracer s) (Some v) (a_qconfig_mapping s) (a_no_observer_modules s)
        (a_backend_config s) (a_example_inputs s) (a_extra_redundant_fakequants s).
Definition set_qconfig_mapping v (s : attrs) : attrs :=
  Attrs (a_tracer s) (a_qconfig s) (Some v) (a_no_observer_modules s)
        (a_backend_config s) (a_example_inputs s) (a_extra_redundant_fakequants s).
Definition set_no_observer_modules v (s : attrs) : attrs :=
  Attrs (a_tracer s) (a_qconfig s) (a_qconfig_mapping s) (Some v)
        (a_backend_config s) (a_example_inputs s) (a_extra_redundant_fakequants s).
Definition set_backend_config v (s : attrs) : attrs :=
  Attrs (a_tracer s) (a_qconfig s) (a_qconfig_mapping s) (a_no_observer_modules s)
        (Some v) (a_example_inputs s) (a_extra_redundant_fakequants s).
Definition set_example_inputs v (s : attrs) : attrs :=
  Attrs (a_tracer s) (a_qconfig s) (a_qconfig_mapping s) (a_no_observer_modules s)
        (a_backend_config s) (Some v) (a_extra_redundant_fakequants s).
Definition set_extra_redundant_fakequants v (s : attrs) : attrs :=
  Attrs (a_tracer s) (a_qconfig s) (a_qconfig_mapping s) (a_no_observer_modules s)
        (a_backend_config s) (a_example_inputs s) (Some v).

(** [self.qconfig_mapping.set_object_type(mod, None)]: the mapping object
    held by the instance is updated where it is. *)
Definition register_no_observer (mod_ : module_class) : Py.M attrs unit :=
  Py.modify (λ s, match a_qconfig_mapping s with
                  | Some m => set_qconfig_mapping (set_object_type m mod_ None) s
                  | None => s
                  end).

(** Python truth value of [no_observer_modules]. *)
Definition truthy {A} (x : option (list A)) : bool :=
  match x with
  | Some (_ :: _) => true
  | _ => false
  end.

(** The default of the last parameter: eight keys, eight empty tuples. *)
Definition default_extra_redundant_fakequants : gmap string (list Fx.entry) :=
  list_to_map
    [ ("extra_module_prev_wo_fakequant", []);
      ("extra_module_next_wo_fakequant", []);
      ("extra_function_prev_wo_fakequant", []);
      ("extra_function_next_wo_fakequant", []);
      ("extra_method_prev_wo_fakequant", []);
      ("extra_method_next_wo_fakequant", []);
      ("extra_op_prev_wo_fakequant", []);
      ("extra_op_next_wo_fakequant", []) ].

Definition __init__ (global_qconfig : Config)
    (no_observer_modules : option (list string))
    (tracer : TracerConfig)
    (extra_redundant_fakequants : gmap string (list Fx.entry)) :
    Py.M attrs unit :=
  tr ← Py.lift (BaseQuantizer__init__ tracer);
  Py.modify (set_tracer tr);;
  qconfig ← Py.lift (QConfigHander global_qconfig);
  Py.modify (set_qconfig qconfig);;
  let w_mode := if is_per_channel (w_qscheme qconfig)
                then "per_channel" else "per_tensor" in
  let a_mode := if is_per_channel (a_qscheme qconfig)
                then "per_channel" else "per_tensor" in
  self ← Py.get;
  Py.assert (bool_decide (w_mode ∈ support_w_modes self));;
  Py.assert (bool_decide (a_mode ∈ support_a_modes self));;
  Py.modify (set_qconfig_mapping (set_global QConfigMapping_new (convert qconfig)));;
  (if truthy no_observer_modules then
     mods ← Py.lift (str2class (default [] no_observer_modules));
     Py.modify (set_no_observer_modules (Some mods));;
     Py.for_each mods register_no_observer
   else
     Py.modify (set_no_observer_modules
                  (match no_observer_modules with
                   | Some _ => Some []
                   | None => None
                   end)));;
  self ← Py.get;
  bc ← Py.lift (match BackendConfigs !! backend self with
                | Some bc => Py.Ok bc
                | None => Py.Raise (Py.KeyError (backend self))
                end);
  Py.modify (set_backend_config bc);;
  Py.modify (set_example_inputs [randn [1; 3; 224; 224]]);;
  Py.modify (set_extra_redundant_fakequants extra_redundant_fakequants).

(** [prepare_for_mmdeploy] *)
Definition prepare_for_mmdeploy {Self Model Input S : Type} (self : Self)
    (model : Model) (dummy_input : Input) (checkpoint : option string) :
    Py.M S unit :=
  Py.raise Py.NotImplementedError.

(** *** The constructed instance, as the other methods see it *)

Record NativeQuantizer : Type := {
  tracer : Tracer;
  qconfig : QConfigHander_obj;
  qconfig_mapping : QConfigMapping QConfig;
  no_observer_modules : option (list module_class);
  backend_config : BackendConfig;
  example_inputs : list Tensor;
  extra_redundant_fakequants : gmap string (list Fx.entry)
}.

(** The instance once every attribute has been assigned. *)
Definition instance (s : attrs) : option NativeQuantizer :=
  tr ← a_tracer s;
  qc ← a_qconfig s;
  qm ← a_qconfig_mapping s;
  nom ← a_no_observer_modules s;
  bc ← a_backend_config s;
  ex ← a_example_inputs s;
  extra ← a_extra_redundant_fakequants s;
  Some {| tracer := tr; qconfig := qc; qconfig_mapping := qm;
          no_observer_modules := nom; backend_config := bc;
          example_inputs := ex; extra_redundant_fakequants := extra |}.

(** *** Graph modules in memory

    The store maps references to graph values and records every call made
    to a collaborator, in order. *)

Inductive event : Type :=
| Called_fuse_fx (graph_module : Fx.ref) (is_qat : bool)
    (backend_config : BackendConfig)
| Called_prepare (model : Fx.ref) (qconfig_mapping : QConfigMapping QConfig)
    (is_qat : bool) (node_name_to_scope : Scope)
    (example_inputs : list Tensor) (backend_config : BackendConfig)
| Called_del_fakequant (s : Fx.side) (k : Fx.kind) (prepared : Fx.ref)
    (patterns : list Fx.entry) (inplace : bool).

Record store : Type := Store {
  objects : gmap Fx.ref Fx.graph;
  calls : list event
}.

Definition log (e : event) : Py.M store unit :=
  Py.modify (λ w, Store (objects w) (calls w ++ [e])).

(** A collaborator acts on the objects, not on the record of calls. *)
Definition external {A}
    (f : gmap Fx.ref Fx.graph → Py.result A * gmap Fx.ref Fx.graph) :
    Py.M store A :=
  λ w, let '(r, o) := f (objects w) in (r, Store o (calls w)).

Definition update_graph (target source : Fx.ref) (f : Fx.graph → Fx.graph) :
    Py.M store Fx.ref :=
  λ w, match objects w !! source with
       | None => (Py.Raise (Py.External "no such graph module"), w)
       | Some g => (Py.Ok target, Store (<[target := f g]> (objects w)) (calls w))
       end.

Definition deepcopy (prepared : Fx.ref) : Py.M store Fx.ref :=
  w ← Py.get; update_graph (fresh (dom (objects w))) prepared id.

(** Modelled from the spec: the eight helpers are not in the source file.
    Each runs its pass on the object behind [prepared], "in-place" when
    [inplace] is set and on a copy otherwise, and returns the object it
    worked on. *)
Definition del_fakequant_obj (s : Fx.side) (k : Fx.kind) (prepared : Fx.ref)
    (patterns : list Fx.entry) (inplace : bool) : Py.M store Fx.ref :=
  log (Called_del_fakequant s k prepared patterns inplace);;
  prepared ← (if inplace then mret prepared else deepcopy prepared);
  update_graph prepared prepared (Fx.del_fakequant s k patterns).

Definition del_fakequant_before_module := del_fakequant_obj Fx.before Fx.module.
Definition del_fakequant_after_module := del_fakequant_obj Fx.after Fx.module.
Definition del_fakequant_before_function := del_fakequant_obj Fx.before Fx.function.
Definition del_fakequant_after_function := del_fakequant_obj Fx.after Fx.function.
Definition del_fakequant_before_method := del_fakequant_obj Fx.before Fx.method.
Definition del_fakequant_after_method := del_fakequant_obj Fx.after Fx.method.
Definition del_fakequant_before_op := del_fakequant_obj Fx.before Fx.op.
Definition del_fakequant_after_op := del_fakequant_obj Fx.after Fx.op.

(** [d.get(key, tuple())] *)
Definition get_or_empty (d : gmap string (list Fx.entry)) (key : string) :
    list Fx.entry :=
  default [] (d !! key).

(** *** [del_redundant_fakequant] *)

Definition del_redundant_fakequant (self : NativeQuantizer)
    (prepared : Fx.ref) : Py.M store Fx.ref :=
  let extra_module_prev_wo_fakequant :=
    get_or_empty (extra_redundant_fakequants self)
                 "extra_module_prev_wo_fakequant" in
  prepared ← del_fakequant_before_module
    prepared
    (module_prev_wo_fakequant self ++ extra_module_prev_wo_fakequant)
    true;

  let extra_module_next_wo_fakequant :=
    get_or_empty (extra_redundant_fakequants self)
                 "extra_module_next_wo_fakequant" in
  prepared ← del_fakequant_after_module
    prepared
    (module_next_wo_fakequant self ++ extra_module_next_wo_fakequant)
    true;

  let extra_function_prev_wo_fakequant :=
    get_or_empty (extra_redundant_fakequants self)
                 "extra_function_prev_wo_fakequant" in
  prepared ← del_fakequant_before_method
    prepared
    (function_prev_wo_fakequant self ++ extra_function_prev_wo_fakequant)
    true;

  let extra_function_next_wo_fakequant :=
    get_or_empty (extra_redundant_fakequants self)
                 "extra_function_next_wo_fakequant" in
  prepared ← del_fakequant_after_method
    prepared
    (function_next_wo_fakequant self ++ extra_function_next_wo_fakequant)
    true;

  let extra_method_prev_wo_fakequant :=
    get_or_empty (extra_redundant_fakequants self)
                 "extra_method_prev_wo_fakequant" in
  prepared ← del_fakequant_before_function
    prepared
    (method_prev_wo_fakequant self ++ extra_method_prev_wo_fakequant)
    true;

  let extra_method_next_wo_fakequant :=
    get_or_empty (extra_redundant_fakequants self)
                 "extra_method_next_wo_fakequant" in
  prepared ← del_fakequant_after_function
    prepared
    (method_next_wo_fakequant self ++ extra_method_next_wo_fakequant)
    true;

  let extra_op_prev_wo_fakequant :=
    get_or_empty (extra_redundant_fakequants self)
                 "extra_op_prev_wo_fakequant" in
  prepared ← del_fakequant_before_op
    prepared
    (op_prev_wo_fakequant self ++ extra_op_prev_wo_fakequant)
    true;

  let extra_op_next_wo_fakequant :=
    get_or_empty (extra_redundant_fakequants self)
                 "extra_op_next_wo_fakequant" in
  prepared ← del_fakequant_after_op
    prepared
    (op_next_wo_fakequant self ++ extra_op_next_wo_fakequant)
    true;
  mret prepared.

(** *** [prepare] *)

Definition prepare {Model} (self : NativeQuantizer) (model : Model)
    (graph_module : Fx.ref) : Py.M store Fx.ref :=
  graph_module ←
    (log (Called_fuse_fx graph_module true (backend_config self));;
     external (_fuse_fx graph_module true (backend_config self)));
  prepared ←
    (log (Called_prepare graph_module (qconfig_mapping self) true
            (node_name_to_scope (tracer self)) (example_inputs self)
            (backend_config self));;
     external (fx_prepare graph_module (qconfig_mapping self) true
                 (node_name_to_scope (tracer self)) (example_inputs self)
                 (backend_config self)));
  prepared ← del_redundant_fakequant self prepared;
  mret prepared.

(** *** [post_process_weight_fakequant] *)

Abbreviation nn := (nn_module Tensor QConfig FakeQuantState).

(** What the method asks of torch, in order. *)
Inductive qat_event : Type :=
| Weight_fake_quant (owner : module_class) (input : Tensor)
| To_float (cls : module_class)
| From_float (cls : module_class).

Definition emit (e : qat_event) : Py.M (list qat_event) unit :=
  Py.modify (λ t, t ++ [e]).

(** [enable_fake_quant(mod)] *)
Definition enable_fake_quant (fq : fake_quantize FakeQuantState) :
    fake_quantize FakeQuantState :=
  {| fake_quant_enabled := true; fq_state := fq_state fq |}.

(** [observed_module.apply(enable_fake_quant)] *)
Fixpoint apply_enable_fake_quant (m : nn) : nn :=
  match m with
  | FakeQuantize fq => FakeQuantize (enable_fake_quant fq)
  | Module cls w wfq q children =>
      Module cls w (enable_fake_quant wfq) q
             (map (λ c, (c.1, apply_enable_fake_quant c.2)) children)
  end.

(** [for m in float_child.modules(): setattr(m, 'qconfig', q)]; a
    fake-quant leaf keeps no [qconfig] field here, nothing reads it. *)
Fixpoint set_qconfig_all (q : QConfig) (m : nn) : nn :=
  match m with
  | FakeQuantize fq => FakeQuantize fq
  | Module cls w wfq _ children =>
      Module cls w wfq (Some q)
             (map (λ c, (c.1, set_qconfig_all q c.2)) children)
  end.

(** [m.weight_fake_quant(x)]: the result, and [m] with the state its
    fake-quant module is left in. *)
Definition call_weight_fake_quant (m : nn) (x : Tensor) :
    Py.M (list qat_event) (Tensor * nn) :=
  emit (Weight_fake_quant (type_of m) x);;
  mret (match m with
        | FakeQuantize fq => (x, m)
        | Module cls w wfq q children =>
            let '(y, wfq') := fake_quant_forward wfq x in
            (y, Module cls w wfq' q children)
        end).

(** [m.weight.data = x] *)
Definition set_weight (m : nn) (x : Tensor) : nn :=
  match m with
  | FakeQuantize fq => m
  | Module cls _ wfq q children => Module cls x wfq q children
  end.

(** The branch taken for a child that is an instance of
    [SUPPORT_QAT_MODULES]; the result is the [new_child] handed to
    [setattr(module, name, new_child)]. *)
Definition convert_child (self : NativeQuantizer) (keep_fake_quant : bool)
    (child : nn) : Py.M (list qat_event) nn :=
  match child with
  | FakeQuantize _ => Py.raise (Py.External "AttributeError")
  | Module _ weight _ _ _ =>
      '(w, child) ← call_weight_fake_quant child weight;
      let child := set_weight child w in
      emit (To_float (type_of child));;
      let float_child := to_float child in
      if keep_fake_quant then
        let float_child := set_qconfig_all (convert (qconfig self)) float_child in
        new_child ←
          match dict_get (MERGE_BN_MAPPINGS torch_ge_1_13) (type_of child) with
          | Some cls =>
              emit (From_float cls);;
              mret (from_float cls float_child)
          | None =>
              emit (From_float (type_of child));;
              mret (from_float (type_of child) float_child)
          end;
        match new_child with
        | FakeQuantize _ => Py.raise (Py.External "AttributeError")
        | Module _ new_weight _ _ _ =>
            '(_, new_child) ← call_weight_fake_quant new_child new_weight;
            mret new_child
        end
      else
        mret float_child
  end.

(** [for name, child in module.named_children(): ...
    setattr(module, name, new_child)], where [step] computes what the
    child is replaced with (itself, mutated in place, when the loop body
    recurses).  The result is the children of [module] after the loop. *)
Definition for_children {S} (step : nn → Py.M S nn) :
    list (string * nn) → Py.M S (list (string * nn)) :=
  fix each cs :=
    match cs with
    | [] => mret []
    | (name, child) :: cs' =>
        new_child ← step child;
        rest ← each cs';
        mret ((name, new_child) :: rest)
    end.

Fixpoint traverse (self : NativeQuantizer) (keep_fake_quant : bool)
    (module : nn) : Py.M (list qat_event) nn :=
  match module with
  | FakeQuantize fq => mret module
  | Module cls w wfq q children =>
      children ←
        for_children
          (λ child,
             if isinstance (type_of child) (SUPPORT_QAT_MODULES torch_ge_1_13)
             then convert_child self keep_fake_quant child
             else traverse self keep_fake_quant child)
          children;
      mret (Module cls w wfq q children)
  end.

(** The method returns [None]; the tree returned here is [observed_module]
    as the call leaves it. *)
Definition post_process_weight_fakequant (self : NativeQuantizer)
    (observed_module : nn) (keep_fake_quant : bool) :
    Py.M (list qat_event) nn :=
  let observed_module := apply_enable_fake_quant observed_module in
  traverse self keep_fake_quant observed_module.

(** *** Summaries used to state what the methods do *)

(** The passes [del_redundant_fakequant] runs, in order: which helper is
    called, and with which tuple. *)
Definition passes (self : NativeQuantizer) :
    list (Fx.side * Fx.kind * list Fx.entry) :=
  let extra := get_or_empty (extra_redundant_fakequants self) in
  [ (Fx.before, Fx.module,
     module_prev_wo_fakequant self ++ extra "extra_module_prev_wo_fakequant");
    (Fx.after, Fx.module,
     module_next_wo_fakequant self ++ extra "extra_module_next_wo_fakequant");
    (Fx.before, Fx.method,
     function_prev_wo_fakequant self ++ extra "extra_function_prev_wo_fakequant");
    (Fx.after, Fx.method,
     function_next_wo_fakequant self ++ extra "extra_function_next_wo_fakequant");
    (Fx.before, Fx.function,
     method_prev_wo_fakequant self ++ extra "extra_method_prev_wo_fakequant");
    (Fx.after, Fx.function,
     method_next_wo_fakequant self ++ extra "extra_method_next_wo_fakequant");
    (Fx.before, Fx.op,
     op_prev_wo_fakequant self ++ extra "extra_op_prev_wo_fakequant");
    (Fx.after, Fx.op,
     op_next_wo_fakequant self ++ extra "extra_op_next_wo_fakequant") ].

(** The passes of a list run one after the other on the object behind
    [prepared], each of them in place. *)
Fixpoint run_inplace (ps : list (Fx.side * Fx.kind * list Fx.entry))
    (prepared : Fx.ref) : Py.M store Fx.ref :=
  match ps with
  | [] => mret prepared
  | p :: ps' =>
      prepared ← del_fakequant_obj p.1.1 p.1.2 prepared p.2 true;
      run_inplace ps' prepared
  end.

Definition del_calls (self : NativeQuantizer) (prepared : Fx.ref) : list event :=
  map (λ p, Called_del_fakequant p.1.1 p.1.2 prepared p.2 true) (passes self).

Definition is_weight_fake_quant (e : qat_event) : bool :=
  match e with
  | Weight_fake_quant _ _ => true
  | _ => false
  end.

(** How many weight fake-quant invocations a record of events holds. *)
Definition weight_fake_quants (t : list qat_event) : nat :=
  length (List.filter is_weight_fake_quant t).

(** The number of modules [traverse] converts below [m]: the instances of
    [SUPPORT_QAT_MODULES] found without passing through another one. *)
Fixpoint converted (m : nn) : nat :=
  match m with
  | FakeQuantize _ => 0
  | Module _ _ _ _ children =>
      sum_list_with
        (λ c, if isinstance (type_of c.2) (SUPPORT_QAT_MODULES torch_ge_1_13)
              then 1 else converted c.2)
        children
  end.

(** The class [from_float] is called on: the merge-mapped class when
    [type(child)] is a key of [MERGE_BN_MAPPINGS], [type(child)] itself
    otherwise. *)
Definition merge_target (cls : module_class) : module_class :=
  default cls (dict_get (MERGE_BN_MAPPINGS torch_ge_1_13) cls).

(** The classes [__init__] registers, all at once. *)
Definition register_all (mods : list module_class)
    (m : QConfigMapping QConfig) : QConfigMapping QConfig :=
  fold_left (λ m t, set_object_type m t None) mods m.

(** What [__init__] leaves behind when it returns. *)
Definition constructed (tr : Tracer) (qc : QConfigHander_obj)
    (no_observer_modules : option (list string)) (mods : list module_class)
    (bc : BackendConfig) (extra : gmap string (list Fx.entry)) : attrs :=
  Attrs (Some tr) (Some qc)
    (Some (register_all mods (set_global QConfigMapping_new (convert qc))))
    (Some (if truthy no_observer_modules then Some mods
           else match no_observer_modules with
                | Some _ => Some []
                | None => None
                end))
    (Some bc) (Some [randn [1; 3; 224; 224]]) (Some extra).

(** The classes [__init__] registers: [str2class(no_observer_modules)] when
    the argument is a non-empty list, none otherwise. *)
Definition resolves (no_observer_modules : option (list string))
    (mods : list module_class) : Prop :=
  if truthy no_observer_modules
  then str2class (default [] no_observer_modules) = Py.Ok mods
  else mods = [].

End Quantizer.

(** ** A small concrete world

    One implementation of the collaborators, on which the definitions above
    can be run: tensors are numbers, fake-quantization rounds down to an
    even number and counts its calls, fusion and observer insertion leave
    the graph as it is. *)

Module Demo.

Definition collaborators : Collaborators := {|
  torch_ge_1_13 := true;
  Config := bool * bool;
  TracerConfig := unit;
  Tracer := unit;
  Scope := unit;
  QConfig := bool * bool;
  BackendConfig := unit;
  Tensor := nat;
  FakeQuantState := nat;
  QConfigHander_obj := bool * bool;
  QConfigHander := λ c, Py.Ok c;
  w_qscheme := λ c, {| is_per_channel := c.1 |};
  a_qscheme := λ c, {| is_per_channel := c.2 |};
  convert := λ c, c;
  BackendConfigs := {[ "native" := tt ]};
  BaseQuantizer__init__ := λ _, Py.Ok tt;
  node_name_to_scope := λ _, tt;
  str2class := λ names, Py.Ok (map Plain names);
  randn := λ _, 0;
  _fuse_fx := λ gm _ _ o, (Py.Ok gm, o);
  fx_prepare := λ gm _ _ _ _ _ o, (Py.Ok gm, o);
  fake_quant_forward := λ fq x,
    (2 * (x / 2),
     {| fake_quant_enabled := fake_quant_enabled fq;
        fq_state := S (fq_state fq) |});
  to_float := λ m,
    match m with
    | Module cls w wfq q _ => Module (Plain "float") (w + 1) wfq q []
    | FakeQuantize fq => FakeQuantize fq
    end;
  from_float := λ cls m,
    match m with
    | Module _ w wfq q cs => Module cls w wfq q cs
    | FakeQuantize fq =>
        Module cls 0 {| fake_quant_enabled := true; fq_state := 0 |} None []
    end
|}.

#[local] Existing Instance collaborators.

Definition quantizer (extra : gmap string (list Fx.entry)) : NativeQuantizer := {|
  tracer := tt;
  qconfig := (true, false);
  qconfig_mapping := set_global QConfigMapping_new (true, false);
  no_observer_modules := None;
  backend_config := tt;
  example_inputs := [0];
  extra_redundant_fakequants := extra
|}.

(** [x -> fake_quant -> torch.flatten(...) -> output] *)
Definition function_graph : Fx.graph :=
  [ Fx.Node "x" (Fx.primitive "placeholder") [];
    Fx.Node "fq" Fx.fake_quant ["x"];
    Fx.Node "flatten" (Fx.call_function "torch.flatten") ["fq"];
    Fx.Node "output" (Fx.primitive "output") ["flatten"] ].

(** [x -> fake_quant -> (...).flatten() -> output] *)
Definition method_graph : Fx.graph :=
  [ Fx.Node "x" (Fx.primitive "placeholder") [];
    Fx.Node "fq" Fx.fake_quant ["x"];
    Fx.Node "flatten" (Fx.call_method "flatten") ["fq"];
    Fx.Node "output" (Fx.primitive "output") ["flatten"] ].

(** [x -> fake_quant -> ReLU6 module -> fake_quant -> output] *)
Definition module_graph : Fx.graph :=
  [ Fx.Node "x" (Fx.primitive "placeholder") [];
    Fx.Node "fq0" Fx.fake_quant ["x"];
    Fx.Node "relu" (Fx.call_module (Plain "ReLU6")) ["fq0"];
    Fx.Node "fq1" Fx.fake_quant ["relu"];
    Fx.Node "output" (Fx.primitive "output") ["fq1"] ].

Definition memory (g : Fx.graph) : store := Store {[ 0 := g ]} [].

Definition idle : fake_quantize nat :=
  {| fake_quant_enabled := false; fq_state := 0 |}.

Definition conv_bn_relu : nn_module nat (bool * bool) nat :=
  Module (Qat ConvBnReLU2d) 7 idle None [].
Definition linear_bn : nn_module nat (bool * bool) nat :=
  Module (Qat LinearBn1d) 5 idle None [].

Definition net : nn_module nat (bool * bool) nat :=
  Module (Plain "GraphModule") 0 idle None
    [ ("conv", conv_bn_relu);
      ("act", FakeQuantize idle);
      ("head", Module (Plain "Sequential") 0 idle None [("fc", linear_bn)]) ].

End Demo.

(** ** Further summaries and a second concrete world *)

Section Tallies.

Context `{Collaborators}.

Definition is_to_float (e : qat_event) : bool :=
  match e with
  | To_float _ => true
  | _ => false
  end.

Definition is_from_float (e : qat_event) : bool :=
  match e with
  | From_float _ => true
  | _ => false
  end.

(** How many events of a record satisfy [p]. *)
Definition tally (p : qat_event → bool) (t : list qat_event) : nat :=
  length (List.filter p t).

(** The eight keys [del_redundant_fakequant] looks up in
    [self.extra_redundant_fakequants]. *)
Definition recognized_keys : list string :=
  [ "extra_module_prev_wo_fakequant"; "extra_module_next_wo_fakequant";
    "extra_function_prev_wo_fakequant"; "extra_function_next_wo_fakequant";
    "extra_method_prev_wo_fakequant"; "extra_method_next_wo_fakequant";
    "extra_op_prev_wo_fakequant"; "extra_op_next_wo_fakequant" ].

(** A node seen from outside: its name and what it calls. *)
Definition outline (g : Fx.graph) : list (string * Fx.call) :=
  map (λ n, (Fx.name n, Fx.what n)) g.

(** The entries of an outline that are not fake-quant nodes. *)
Definition keeps_calls (l : list (string * Fx.call)) : list (string * Fx.call) :=
  List.filter (λ c, match c.2 with Fx.fake_quant => false | _ => true end) l.

End Tallies.

(** Collaborators that can fail: the tracer and the qconfig resolver fail on
    demand, [str2class] knows the names of [known] only, the backend table
    is [table], fusion and observer insertion fail on demand, and the torch
    version test is [recent]. *)

Module Faulty.

Definition collaborators (tracer_ok qconfig_ok : bool) (known : list string)
    (table : gmap string unit) (fuse_ok observe_ok recent : bool) :
    Collaborators := {|
  torch_ge_1_13 := recent;
  Config := bool * bool;
  TracerConfig := unit;
  Tracer := unit;
  Scope := unit;
  QConfig := bool * bool;
  BackendConfig := unit;
  Tensor := nat;
  FakeQuantState := nat;
  QConfigHander_obj := bool * bool;
  QConfigHander := λ c,
    if qconfig_ok then Py.Ok c else Py.Raise (Py.External "ValueError");
  w_qscheme := λ c, {| is_per_channel := c.1 |};
  a_qscheme := λ c, {| is_per_channel := c.2 |};
  convert := λ c, c;
  BackendConfigs := table;
  BaseQuantizer__init__ := λ _,
    if tracer_ok then Py.Ok tt else Py.Raise (Py.External "KeyError");
  node_name_to_scope := λ _, tt;
  str2class := λ names,
    if forallb (λ n, bool_decide (n ∈ known)) names
    then Py.Ok (map Plain names)
    else Py.Raise (Py.External "ImportError");
  randn := λ _, 0;
  _fuse_fx := λ gm _ _ o,
    if fuse_ok then (Py.Ok gm, o)
    else (Py.Raise (Py.External "fuse"), o);
  fx_prepare := λ gm _ _ _ _ _ o,
    if observe_ok then (Py.Ok gm, o)
    else (Py.Raise (Py.External "observe"), o);
  fake_quant_forward := λ fq x,
    (2 * (x / 2),
     {| fake_quant_enabled := fake_quant_enabled fq;
        fq_state := S (fq_state fq) |});
  to_float := λ m,
    match m with
    | Module cls w wfq q _ => Module (Plain "float") (w + 1) wfq q []
    | FakeQuantize fq => FakeQuantize fq
    end;
  from_float := λ cls m,
    match m with
    | Module _ w wfq q cs => Module cls w wfq q cs
    | FakeQuantize fq =>
        Module cls 0 {| fake_quant_enabled := true; fq_state := 0 |} None []
    end
|}.

Definition quantizer (tracer_ok qconfig_ok : bool) (known : list string)
    (table : gmap string unit) (fuse_ok observe_ok recent : bool)
    (extra : gmap string (list Fx.entry)) :
    @NativeQuantizer (collaborators tracer_ok qconfig_ok known table
                        fuse_ok observe_ok recent) :=
  @Build_NativeQuantizer
    (collaborators tracer_ok qconfig_ok known table fuse_ok observe_ok recent)
    (tt : unit) ((true, false) : bool * bool)
    (set_global QConfigMapping_new ((true, false) : bool * bool))
    None (tt : unit) ([0] : list nat) extra.

(** The tracer cannot be built. *)
Definition no_tracer : Collaborators :=
  collaborators false true [] {[ "native" := tt ]} true true true.

(** [global_qconfig] cannot be resolved. *)
Definition no_qconfig : Collaborators :=
  collaborators true false [] {[ "native" := tt ]} true true true.

(** [str2class] resolves [ReLU] and nothing else. *)
Definition strict_names : Collaborators :=
  collaborators true true ["ReLU"] {[ "native" := tt ]} true true true.

(** The backend table has no [native] entry. *)
Definition no_backend : Collaborators :=
  collaborators true true ["ReLU"] ∅ true true true.

(** Fusion raises. *)
Definition no_fuse : Collaborators :=
  collaborators true true [] {[ "native" := tt ]} false true true.

(** Observer insertion raises. *)
Definition no_observe : Collaborators :=
  collaborators true true [] {[ "native" := tt ]} true false true.

(** A torch older than 1.13. *)
Definition old_torch : Collaborators :=
  collaborators true true [] {[ "native" := tt ]} true true false.

(** A hierarchy without any QAT module. *)
Definition plain_net : nn_module nat (bool * bool) nat :=
  Module (Plain "GraphModule") 3
    {| fake_quant_enabled := false; fq_state := 0 |} None
    [ ("relu", Module (Plain "ReLU") 0
                 {| fake_quant_enabled := false; fq_state := 0 |} None []);
      ("act", FakeQuantize {| fake_quant_enabled := false; fq_state := 0 |}) ].

(** A QAT module of a user-defined subclass of [ConvBn2d]. *)
Definition my_conv_bn : nn_module nat (bool * bool) nat :=
  Module (Subclass "MyConvBn" (Qat ConvBn2d)) 9
    {| fake_quant_enabled := false; fq_state := 0 |} None [].

End Faulty.

(** ** Positions in a module hierarchy, and a third concrete world *)

(** [m.get_submodule(path)]: the module found by following child names. *)
Fixpoint get_submodule {T Q F} (m : nn_module T Q F) (path : list string) :
    option (nn_module T Q F) :=
  match path with
  | [] => Some m
  | name :: rest =>
      match dict_get (named_children m) name with
      | Some child => get_submodule child rest
      | None => None
      end
  end.

(** torch's batch-norm layers, by class. *)
Definition BATCHNORM_CLASSES : list module_class :=
  [Plain "BatchNorm1d"; Plain "BatchNorm2d"; Plain "BatchNorm3d"].

Definition is_batchnorm {T Q F} (m : nn_module T Q F) : bool :=
  isinstance (type_of m) BATCHNORM_CLASSES.

(** Whether module [m] has a batch-norm layer among its children. *)
Definition has_batchnorm_child {T Q F} (m : nn_module T Q F) : bool :=
  existsb (λ c, is_batchnorm c.2) (named_children m).


Section Positions.

Context `{Collaborators}.

(** [traverse] reaches the module at [path]: below the root, every module
    on the way is one the loop recurses into, that is, not an instance of
    [SUPPORT_QAT_MODULES]. *)
Fixpoint visited (m : nn_module Tensor QConfig FakeQuantState)
    (path : list string) : bool :=
  match path with
  | [] => true
  | name :: rest =>
      match dict_get (named_children m) name with
      | Some child =>
          negb (isinstance (type_of child) (SUPPORT_QAT_MODULES torch_ge_1_13))
          && visited child rest
      | None => false
      end
  end.

End Positions.

(** A world closer to torch in two respects.  Observer insertion puts a
    fake-quant node on every input of a module call whose type the mapping
    gives a configuration, and leaves the calls of the other types alone.
    [to_float] folds the batch-norm away and [from_float] builds a fresh
    module of the class it is called on, with a [bn] child exactly for the
    classes that carry one. *)

Module Torchlike.

Definition configured (qm : QConfigMapping (bool * bool)) (c : Fx.call) : bool :=
  match c with
  | Fx.call_module cls =>
      match dict_get (object_type_qconfigs qm) cls with
      | Some q => bool_decide (is_Some q)
      | None => bool_decide (is_Some (global_qconfig qm))
      end
  | _ => false
  end.

Definition observer (a : string) : string := "activation_post_process_" +:+ a.

Definition insert_observers (qm : QConfigMapping (bool * bool))
    (g : Fx.graph) : Fx.graph :=
  flat_map
    (λ n, if configured qm (Fx.what n)
          then map (λ a, Fx.Node (observer a) Fx.fake_quant [a]) (Fx.args n)
               ++ [Fx.Node (Fx.name n) (Fx.what n) (map observer (Fx.args n))]
          else [n])
    g.

Definition idle : fake_quantize nat :=
  {| fake_quant_enabled := false; fq_state := 0 |}.

Definition batchnorm : nn_module nat (bool * bool) nat :=
  Module (Plain "BatchNorm2d") 1 idle None [].

Definition collaborators : Collaborators := {|
  torch_ge_1_13 := true;
  Config := bool * bool;
  TracerConfig := unit;
  Tracer := unit;
  Scope := unit;
  QConfig := bool * bool;
  BackendConfig := unit;
  Tensor := nat;
  FakeQuantState := nat;
  QConfigHander_obj := bool * bool;
  QConfigHander := λ c, Py.Ok c;
  w_qscheme := λ c, {| is_per_channel := c.1 |};
  a_qscheme := λ c, {| is_per_channel := c.2 |};
  convert := λ c, c;
  BackendConfigs := {[ "native" := tt ]};
  BaseQuantizer__init__ := λ _, Py.Ok tt;
  node_name_to_scope := λ _, tt;
  str2class := λ names, Py.Ok (map Plain names);
  randn := λ _, 0;
  _fuse_fx := λ gm _ _ o, (Py.Ok gm, o);
  fx_prepare := λ gm qm _ _ _ _ o,
    match o !! gm with
    | Some g => (Py.Ok gm, <[gm := insert_observers qm g]> o)
    | None => (Py.Raise (Py.External "no such graph module"), o)
    end;
  fake_quant_forward := λ fq x,
    (2 * (x / 2),
     {| fake_quant_enabled := fake_quant_enabled fq;
        fq_state := S (fq_state fq) |});
  to_float := λ m,
    match m with
    | Module cls w wfq q _ => Module (Plain "float") (w + 1) wfq q []
    | FakeQuantize fq => FakeQuantize fq
    end;
  from_float := λ cls m,
    let children :=
      match cls with
      | Qat c => if has_bn c then [("bn", batchnorm)] else []
      | _ => []
      end in
    match m with
    | Module _ w wfq q _ => Module cls w wfq q children
    | FakeQuantize fq => Module cls 0 idle None children
    end
|}.

Definition quantizer : @NativeQuantizer collaborators :=
  @Build_NativeQuantizer collaborators
    (tt : unit) ((true, false) : bool * bool)
    (set_global QConfigMapping_new ((true, false) : bool * bool))
    None (tt : unit) ([0] : list nat) ∅.


(** A fused conv with its batch-norm, two levels below the root. *)
Definition conv_bn : nn_module nat (bool * bool) nat :=
  Module (Qat ConvBn2d) 7 idle None [("bn", batchnorm)].

Definition net : nn_module nat (bool * bool) nat :=
  Module (Plain "GraphModule") 0 idle None
    [ ("act", FakeQuantize idle);
      ("features", Module (Plain "Sequential") 0 idle None
                     [("relu", Module (Plain "ReLU") 0 idle None []);
                      ("conv", conv_bn)]) ].

End Torchlike.

(** * Properties *)

(** ** Facts about the deletion passes *)

Module FxFacts.
Import Fx.

Lemma node_at_In g a n : node_at g a = Some n → In n g ∧ name n = a.
Proof.
  unfold node_at. intros Hf. apply find_some in Hf as [Hin Hn].
  split; [done|]. by apply bool_decide_eq_true in Hn.
Qed.

Lemma single_fake_quant_unchained g :
  single_fake_quant g = true → unchained g.
Proof.
  unfold single_fake_quant. rewrite forallb_forall. intros Hall a b Hab.
  unfold fq_source in Hab at 1.
  destruct (node_at g a) as [n|] eqn:Hn; simpl in Hab; [|done].
  apply node_at_In in Hn as [Hin _]. specialize (Hall n Hin).
  rewrite Hab in Hall. apply negb_true_iff, bool_decide_eq_false in Hall.
  destruct (fq_source g b) eqn:Hb; [|done]. exfalso. apply Hall. eauto.
Qed.

Lemma node_at_relink_filter (doomed : string → bool) σ (l : graph) a :
  node_at (map (relink σ) (List.filter (λ n, negb (doomed (name n))) l)) a
  = if doomed a then None else relink σ <$> node_at l a.
Proof.
  unfold node_at. induction l as [|n l IH]; simpl.
  - by destruct (doomed a).
  - destruct (doomed (name n)) eqn:Hd; simpl.
    + rewrite IH. case_bool_decide as Hna; [|done].
      subst a. by rewrite Hd.
    + case_bool_decide as Hna; [|done].
      subst a. by rewrite Hd.
Qed.

Lemma fq_input_relink σ n : fq_input (relink σ n) = σ <$> fq_input n.
Proof.
  destruct n as [nm w ar]. unfold fq_input. simpl.
  destruct w; try done. by destruct ar as [|a [|]].
Qed.

Lemma fq_source_erase doomed g a :
  unchained g → fq_only doomed g →
  fq_source (erase doomed g) a = if doomed a then None else fq_source g a.
Proof.
  intros Hg Hd. unfold fq_source at 1, erase.
  rewrite node_at_relink_filter. destruct (doomed a); [done|].
  unfold fq_source at 1.
  destruct (node_at g a) as [n|] eqn:Hn; simpl; [|done].
  rewrite fq_input_relink.
  destruct (fq_input n) as [b|] eqn:Hb; simpl; [|done].
  f_equal. unfold rewire. destruct (doomed b) eqn:Hdb; [|done].
  apply Hd in Hdb as [c Hc].
  assert (fq_source g a = Some b) as Hab
    by (unfold fq_source; rewrite Hn; done).
  apply Hg in Hab. congruence.
Qed.

Lemma redundant_fq_only s k ps g : fq_only (redundant s k ps g) g.
Proof.
  intros a. unfold redundant. destruct (fq_source g a); [eauto|done].
Qed.

Lemma unchained_erase doomed g :
  unchained g → fq_only doomed g → unchained (erase doomed g).
Proof.
  intros Hg Hd a b. rewrite !fq_source_erase by done.
  destruct (doomed a); [done|]. intros Hab.
  destruct (doomed b); [done|]. by apply (Hg a).
Qed.

(** Deleting fake-quant nodes never makes another one deletable. *)
Lemma redundant_erase doomed s k ps g a :
  unchained g → fq_only doomed g →
  redundant s k ps (erase doomed g) a = true → redundant s k ps g a = true.
Proof.
  intros Hg Hd. unfold redundant. rewrite fq_source_erase by done.
  destruct (doomed a) eqn:Hda; [done|].
  destruct (fq_source g a) as [b|] eqn:Hab; [|done].
  destruct s.
  - rewrite !existsb_exists. intros (n' & Hin & Hm).
    apply andb_true_iff in Hm as [Hm Harg].
    apply bool_decide_eq_true in Harg.
    unfold erase in Hin. apply in_map_iff in Hin as (n & <- & Hin).
    apply filter_In in Hin as [Hin _]. simpl in Harg, Hm.
    apply list_elem_of_fmap in Harg as (c & Hac & Hc).
    unfold rewire in Hac. destruct (doomed c) eqn:Hdc.
    + apply Hd in Hdc as [x Hx]. rewrite Hx in Hac. simpl in Hac. subst x.
      apply Hg in Hx. congruence.
    + subst c. exists n. split; [done|].
      apply andb_true_iff. split; [done|]. by apply bool_decide_eq_true.
  - unfold erase. rewrite node_at_relink_filter.
    destruct (doomed b); [done|]. by destruct (node_at g b).
Qed.

Lemma clean_erase doomed p g :
  unchained g → fq_only doomed g → clean p g → clean p (erase doomed g).
Proof.
  intros Hg Hd Hc a.
  destruct (redundant _ _ _ (erase doomed g) a) eqn:Hr; [|done].
  apply redundant_erase in Hr; [|done..]. by rewrite Hc in Hr.
Qed.

(** A pass leaves nothing for itself to delete. *)
Lemma clean_del_fakequant s k ps g :
  unchained g → clean (s, k, ps) (del_fakequant s k ps g).
Proof.
  intros Hg a. simpl. unfold del_fakequant.
  destruct (redundant s k ps (erase _ g) a) eqn:Hr; [|done].
  pose proof Hr as Hr'.
  apply redundant_erase in Hr'; [|done|apply redundant_fq_only].
  unfold redundant at 1 in Hr.
  rewrite fq_source_erase in Hr; [|done|apply redundant_fq_only].
  by rewrite Hr' in Hr.
Qed.

Lemma relink_filter_id (doomed : string → bool) σ (l : graph) :
  (∀ a, doomed a = false) → (∀ a, σ a = a) →
  map (relink σ) (List.filter (λ n, negb (doomed (name n))) l) = l.
Proof.
  intros Hd Hσ. induction l as [|[nm w ar] l IH]; simpl; [done|].
  rewrite Hd. simpl. rewrite IH. f_equal. unfold relink. simpl. f_equal.
  induction ar as [|a ar IHa]; simpl; [done|]. by rewrite Hσ, IHa.
Qed.

Lemma del_fakequant_clean s k ps g :
  clean (s, k, ps) g → del_fakequant s k ps g = g.
Proof.
  intros Hc. unfold del_fakequant, erase. apply relink_filter_id.
  - apply Hc.
  - intros a. unfold rewire. specialize (Hc a). simpl in Hc. by rewrite Hc.
Qed.

Lemma unchained_del_fakequant s k ps g :
  unchained g → unchained (del_fakequant s k ps g).
Proof. intros Hg. apply unchained_erase; [done|apply redundant_fq_only]. Qed.

Lemma unchained_run passes g : unchained g → unchained (run passes g).
Proof.
  revert g. induction passes as [|p passes IH]; intros g Hg; simpl; [done|].
  apply IH. by apply unchained_del_fakequant.
Qed.

Lemma clean_run p passes g :
  unchained g → clean p g → clean p (run passes g).
Proof.
  revert g. induction passes as [|q passes IH]; intros g Hg Hc; simpl; [done|].
  apply IH; [by apply unchained_del_fakequant|].
  apply clean_erase; [done|apply redundant_fq_only|done].
Qed.

Lemma clean_after_run passes g p :
  unchained g → In p passes → clean p (run passes g).
Proof.
  revert g. induction passes as [|q passes IH]; intros g Hg Hin; [done|].
  simpl. destruct Hin as [->|Hin].
  - apply clean_run; [by apply unchained_del_fakequant|].
    destruct p as [[s k] ps]. by apply clean_del_fakequant.
  - apply IH; [by apply unchained_del_fakequant|done].
Qed.

Lemma run_clean passes g :
  (∀ p, In p passes → clean p g) → run passes g = g.
Proof.
  induction passes as [|[[s k] ps] passes IH]; intros Hall; simpl; [done|].
  rewrite del_fakequant_clean by (apply Hall; by left).
  apply IH. intros p Hp. apply Hall. by right.
Qed.

(** Running a sequence of passes twice changes nothing more. *)
Lemma run_idempotent passes g :
  unchained g → run passes (run passes g) = run passes g.
Proof.
  intros Hg. apply run_clean. intros p Hp. by apply clean_after_run.
Qed.

End FxFacts.

(** ** Facts about the methods *)

Ltac py_unfold :=
  unfold mbind, M_bind, mret, M_ret, Py.assert, Py.bind, Py.ret, Py.modify,
    Py.lift, Py.get, Py.raise in *.

Section MethodFacts.

Context `{Collaborators}.

Lemma del_fakequant_obj_inplace s k prepared ps w g :
  objects w !! prepared = Some g →
  del_fakequant_obj s k prepared ps true w
  = (Py.Ok prepared,
     Store (<[prepared := Fx.del_fakequant s k ps g]> (objects w))
           (calls w ++ [Called_del_fakequant s k prepared ps true])).
Proof.
  intros Hg. unfold del_fakequant_obj, log, update_graph. py_unfold.
  simpl. by rewrite Hg.
Qed.

Lemma del_fakequant_obj_dangling s k prepared ps w :
  objects w !! prepared = None →
  del_fakequant_obj s k prepared ps true w
  = (Py.Raise (Py.External "no such graph module"),
     Store (objects w) (calls w ++ [Called_del_fakequant s k prepared ps true])).
Proof.
  intros Hg. unfold del_fakequant_obj, log, update_graph. py_unfold.
  simpl. by rewrite Hg.
Qed.

Lemma run_inplace_spec ps prepared w g :
  objects w !! prepared = Some g →
  run_inplace ps prepared w
  = (Py.Ok prepared,
     Store (<[prepared := Fx.run ps g]> (objects w))
           (calls w ++ map (λ p, Called_del_fakequant p.1.1 p.1.2 prepared p.2 true) ps)).
Proof.
  revert w g. induction ps as [|p ps IH]; intros w g Hg; simpl.
  - py_unfold. rewrite app_nil_r, insert_id by done. by destruct w.
  - py_unfold. rewrite (del_fakequant_obj_inplace _ _ _ _ _ g) by done.
    erewrite IH by (simpl; apply lookup_insert_eq).
    simpl. by rewrite insert_insert_eq, <- app_assoc.
Qed.

(** The method is its eight calls, in the order and with the tuples listed
    by [passes]. *)
Lemma del_redundant_fakequant_unfold self prepared :
  del_redundant_fakequant self prepared = run_inplace (passes self) prepared.
Proof. reflexivity. Qed.

Lemma del_redundant_fakequant_spec self prepared w g :
  objects w !! prepared = Some g →
  del_redundant_fakequant self prepared w
  = (Py.Ok prepared,
     Store (<[prepared := Fx.run (passes self) g]> (objects w))
           (calls w ++ del_calls self prepared)).
Proof. intros Hg. rewrite del_redundant_fakequant_unfold. by apply run_inplace_spec. Qed.

(** C6. [del_redundant_fakequant] works in place and is idempotent: called
    on a graph module whose graph has at most one fake-quant node per edge,
    it returns the reference it was given, overwrites that object and no
    other, and a second call leaves every object as the first call left
    it. *)
Theorem del_redundant_fakequant_idempotent self prepared w g :
  objects w !! prepared = Some g →
  Fx.single_fake_quant g = true →
  ∃ w1 w2,
    del_redundant_fakequant self prepared w = (Py.Ok prepared, w1) ∧
    objects w1 = <[prepared := Fx.run (passes self) g]> (objects w) ∧
    del_redundant_fakequant self prepared w1 = (Py.Ok prepared, w2) ∧
    objects w2 = objects w1.
Proof.
  intros Hg Hinv. apply FxFacts.single_fake_quant_unchained in Hinv.
  eexists _, _. split; [by apply del_redundant_fakequant_spec|].
  split; [done|]. split.
  - apply del_redundant_fakequant_spec. cbn [objects]. apply lookup_insert_eq.
  - cbn [objects]. by rewrite insert_insert_eq, FxFacts.run_idempotent.
Qed.

Lemma del_redundant_fakequant_dangling self prepared w :
  objects w !! prepared = None →
  ∃ e first,
    del_redundant_fakequant self prepared w
    = (Py.Raise e, Store (objects w) (calls w ++ [first])) ∧
    head (del_calls self prepared) = Some first.
Proof.
  intros Hg. rewrite del_redundant_fakequant_unfold.
  eexists _, _. split; [|reflexivity].
  cbn [passes run_inplace]. py_unfold.
  by rewrite del_fakequant_obj_dangling.
Qed.

(** C4. [prepare] always begins with training-mode fusion
    ([is_qat=True]) of the graph it is given; when fusion returns, the
    next call is observer insertion on the fused graph, with
    [self.qconfig_mapping], [is_qat=True] and the tracer's
    [node_name_to_scope]; when that returns, the last step is
    [del_redundant_fakequant] on the observed graph, whose result is
    returned. *)
Theorem prepare_order {Model} self (model : Model) graph_module w :
  let bc := backend_config self in
  let fuse := Called_fuse_fx graph_module true bc in
  (∃ rest,
     calls (prepare self model graph_module w).2 = calls w ++ fuse :: rest) ∧
  ∀ fused o1,
    _fuse_fx graph_module true bc (objects w) = (Py.Ok fused, o1) →
    let observe :=
      Called_prepare fused (qconfig_mapping self) true
        (node_name_to_scope (tracer self)) (example_inputs self) bc in
    (∃ rest,
       calls (prepare self model graph_module w).2
       = calls w ++ fuse :: observe :: rest) ∧
    ∀ prepared o2 g,
      fx_prepare fused (qconfig_mapping self) true
        (node_name_to_scope (tracer self)) (example_inputs self) bc o1
      = (Py.Ok prepared, o2) →
      o2 !! prepared = Some g →
      prepare self model graph_module w
      = (Py.Ok prepared,
         Store (<[prepared := Fx.run (passes self) g]> o2)
               (calls w ++ fuse :: observe :: del_calls self prepared)) ∧
      del_redundant_fakequant self prepared
        (Store o2 (calls w ++ [fuse; observe]))
      = prepare self model graph_module w.
Proof.
  intros bc fuse.
  assert (∀ fused o1,
    _fuse_fx graph_module true bc (objects w) = (Py.Ok fused, o1) →
    prepare self model graph_module w
    = match fx_prepare fused (qconfig_mapping self) true
              (node_name_to_scope (tracer self)) (example_inputs self) bc o1 with
      | (Py.Ok prepared, o2) =>
          match del_redundant_fakequant self prepared
                  (Store o2 ((calls w ++ [fuse]) ++
                     [Called_prepare fused (qconfig_mapping self) true
                        (node_name_to_scope (tracer self))
                        (example_inputs self) bc])) with
          | (Py.Ok r, w') => (Py.Ok r, w')
          | (Py.Raise e, w') => (Py.Raise e, w')
          end
      | (Py.Raise e, o2) =>
          (Py.Raise e,
           Store o2 ((calls w ++ [fuse]) ++
                     [Called_prepare fused (qconfig_mapping self) true
                        (node_name_to_scope (tracer self))
                        (example_inputs self) bc]))
      end) as Hstep.
  { intros fused o1 Hfuse. unfold prepare, log, external. py_unfold.
    cbn [objects calls]. fold bc. rewrite Hfuse. cbn [objects calls].
    destruct (fx_prepare _ _ _ _ _ _ _) as [[prepared|e] o2]; [|done].
    by destruct (del_redundant_fakequant _ _ _) as [[r|e] w']. }
  assert (∀ fused o1,
    _fuse_fx graph_module true bc (objects w) = (Py.Ok fused, o1) →
    ∃ rest,
      calls (prepare self model graph_module w).2
      = calls w ++ fuse
          :: Called_prepare fused (qconfig_mapping self) true
               (node_name_to_scope (tracer self)) (example_inputs self) bc
          :: rest) as Hprefix.
  { intros fused o1 Hfuse. rewrite (Hstep _ _ Hfuse).
    destruct (fx_prepare _ _ _ _ _ _ _) as [[prepared|e] o2].
    - destruct (o2 !! prepared) as [g|] eqn:Hg.
      + rewrite (del_redundant_fakequant_spec _ _ _ g) by done.
        eexists. cbn [snd calls]. by rewrite <- !app_assoc.
      + destruct (del_redundant_fakequant_dangling self prepared
                    (Store o2 ((calls w ++ [fuse]) ++
                       [Called_prepare fused (qconfig_mapping self) true
                          (node_name_to_scope (tracer self))
                          (example_inputs self) bc])))
          as (e & first & -> & _); [done|].
        eexists. cbn [snd calls]. by rewrite <- !app_assoc.
    - exists []. cbn [snd calls]. by rewrite <- !app_assoc. }
  split.
  - destruct (_fuse_fx graph_module true bc (objects w))
      as [[fused|e] o1] eqn:Hfuse.
    + destruct (Hprefix _ _ eq_refl) as [rest ->]. eauto.
    + exists []. unfold prepare, log, external. py_unfold.
      cbn [objects calls]. fold bc. by rewrite Hfuse.
  - intros fused o1 Hfuse observe. split; [by eapply Hprefix|].
    intros prepared o2 g Hprep Hg.
    rewrite (Hstep _ _ Hfuse), Hprep.
    rewrite <- app_assoc. cbn [app].
    rewrite (del_redundant_fakequant_spec _ _ _ g) by done.
    cbn [objects calls]. rewrite <- app_assoc. split; [done|].
    rewrite (del_redundant_fakequant_spec _ _ _ g) by done.
    cbn [objects calls]. by rewrite <- app_assoc.
Qed.

(** *** Construction *)

Lemma dict_get_set {K V} `{EqDecision K} (d : list (K * V)) k v k' :
  dict_get (dict_set d k v) k'
  = if decide (k' = k) then Some v else dict_get d k'.
Proof.
  induction d as [|[k0 v0] d IH]; simpl.
  - by destruct (decide (k' = k)).
  - destruct (decide (k = k0)) as [->|Hne]; simpl.
    + by destruct (decide (k' = k0)).
    + rewrite IH. destruct (decide (k' = k0)) as [->|]; [|done].
      by rewrite decide_False by done.
Qed.

Lemma register_all_global mods m :
  global_qconfig (register_all mods m) = global_qconfig m.
Proof.
  revert m. induction mods as [|t mods IH]; intros m; simpl; [done|].
  unfold register_all in *. simpl. by rewrite IH.
Qed.

Lemma register_all_lookup mods m t :
  dict_get (object_type_qconfigs (register_all mods m)) t
  = if bool_decide (t ∈ mods) then Some None
    else dict_get (object_type_qconfigs m) t.
Proof.
  revert m. induction mods as [|t0 mods IH]; intros m.
  - by rewrite bool_decide_eq_false_2 by apply not_elem_of_nil.
  - unfold register_all in *. simpl. rewrite IH. simpl.
    rewrite dict_get_set.
    destruct (bool_decide (t ∈ mods)) eqn:Hin.
    + apply bool_decide_eq_true in Hin.
      by rewrite bool_decide_eq_true_2 by (by right).
    + apply bool_decide_eq_false in Hin.
      destruct (decide (t = t0)) as [->|Hne].
      * by rewrite bool_decide_eq_true_2 by (by left).
      * rewrite bool_decide_eq_false_2; [done|].
        intros [?|?]%elem_of_cons; done.
Qed.

Lemma for_each_register mods s m :
  a_qconfig_mapping s = Some m →
  Py.for_each mods register_no_observer s
  = (Py.Ok tt, set_qconfig_mapping (register_all mods m) s).
Proof.
  revert s m. induction mods as [|t mods IH]; intros s m Hm; simpl.
  - unfold Py.ret, register_all. simpl. destruct s. simpl in *. by subst.
  - unfold Py.bind, register_no_observer at 1, Py.modify. rewrite Hm.
    by rewrite (IH _ (set_object_type m t None)).
Qed.

Lemma w_mode_supported {Self} (self : Self) (b : bool) :
  bool_decide ((if b then "per_channel" else "per_tensor")
               ∈ support_w_modes self) = true.
Proof. by destruct b. Qed.

Lemma a_mode_supported {Self} (self : Self) (b : bool) :
  bool_decide ((if b then "per_channel" else "per_tensor")
               ∈ support_a_modes self) = negb b.
Proof. by destruct b. Qed.

Lemma __init___returns gq nom tracer extra tr qc mods bc :
  BaseQuantizer__init__ tracer = Py.Ok tr →
  QConfigHander gq = Py.Ok qc →
  is_per_channel (a_qscheme qc) = false →
  resolves nom mods →
  BackendConfigs !! "native" = Some bc →
  __init__ gq nom tracer extra blank
  = (Py.Ok tt, constructed tr qc nom mods bc extra).
Proof.
  intros Htr Hqc Ha Hmods Hbc. unfold __init__, resolves in *. py_unfold.
  rewrite Htr, Hqc. cbn [fst snd].
  rewrite w_mode_supported, a_mode_supported, Ha. cbn [negb].
  destruct (truthy nom) eqn:Hnom.
  - rewrite Hmods. cbn beta iota.
    erewrite for_each_register by reflexivity.
    unfold backend. rewrite Hbc. unfold constructed. by rewrite Hnom.
  - subst mods. unfold backend. rewrite Hbc. unfold constructed.
    by rewrite Hnom.
Qed.

Lemma __init___rejects gq nom tracer extra tr qc :
  BaseQuantizer__init__ tracer = Py.Ok tr →
  QConfigHander gq = Py.Ok qc →
  is_per_channel (a_qscheme qc) = true →
  __init__ gq nom tracer extra blank
  = (Py.Raise Py.AssertionError, set_qconfig qc (set_tracer tr blank)).
Proof.
  intros Htr Hqc Ha. unfold __init__. py_unfold.
  rewrite Htr, Hqc. cbn [fst snd].
  by rewrite w_mode_supported, a_mode_supported, Ha.
Qed.

Lemma __init___returned gq nom tracer extra s :
  __init__ gq nom tracer extra blank = (Py.Ok tt, s) →
  ∃ tr qc mods bc,
    BaseQuantizer__init__ tracer = Py.Ok tr ∧
    QConfigHander gq = Py.Ok qc ∧
    is_per_channel (a_qscheme qc) = false ∧
    resolves nom mods ∧
    BackendConfigs !! "native" = Some bc ∧
    s = constructed tr qc nom mods bc extra.
Proof.
  intros Hrun.
  destruct (BaseQuantizer__init__ tracer) as [tr|e] eqn:Htr;
    [|by unfold __init__ in Hrun; py_unfold; rewrite Htr in Hrun].
  destruct (QConfigHander gq) as [qc|e] eqn:Hqc;
    [|by unfold __init__ in Hrun; py_unfold; rewrite Htr, Hqc in Hrun].
  destruct (is_per_channel (a_qscheme qc)) eqn:Ha;
    [by rewrite (__init___rejects _ _ _ _ tr qc) in Hrun|].
  assert (∃ mods, resolves nom mods) as [mods Hmods].
  { unfold resolves. destruct (truthy nom) eqn:Hnom; [|by eexists].
    destruct (str2class (default [] nom)) as [mods|e] eqn:Hs; [by eexists|].
    exfalso. unfold __init__ in Hrun. py_unfold.
    rewrite Htr, Hqc in Hrun. cbn [fst snd] in Hrun.
    rewrite w_mode_supported, a_mode_supported, Ha, Hnom, Hs in Hrun.
    done. }
  destruct (BackendConfigs !! "native") as [bc|] eqn:Hbc.
  - rewrite (__init___returns _ _ _ _ tr qc mods bc) in Hrun by done.
    exists tr, qc, mods, bc. by simplify_eq.
  - exfalso. unfold __init__, resolves in *. py_unfold.
    rewrite Htr, Hqc in Hrun. cbn [fst snd] in Hrun.
    rewrite w_mode_supported, a_mode_supported, Ha in Hrun.
    cbn [negb] in Hrun. unfold backend in Hrun.
    destruct (truthy nom).
    + rewrite Hmods in Hrun.
      erewrite for_each_register in Hrun by reflexivity.
      by rewrite Hbc in Hrun.
    + by rewrite Hbc in Hrun.
Qed.

(** C2. With the tracer built and [global_qconfig] resolved, construction
    depends on the activation scheme alone, whatever the weight scheme:
    per-tensor activations let [__init__] run to its end and leave a
    complete instance (given that [no_observer_modules] resolves and the
    backend table has the [native] entry); per-channel activations make it
    raise [AssertionError] at the mode check, when only [tracer] and
    [qconfig] have been assigned: no qconfig mapping exists yet, and
    nothing after the check has run. *)
Theorem construction_mode_check gq nom tracer extra tr qc :
  BaseQuantizer__init__ tracer = Py.Ok tr →
  QConfigHander gq = Py.Ok qc →
  (is_per_channel (a_qscheme qc) = false →
   ∀ mods bc,
     resolves nom mods →
     BackendConfigs !! "native" = Some bc →
     ∃ s self,
       __init__ gq nom tracer extra blank = (Py.Ok tt, s) ∧
       instance s = Some self ∧
       qconfig self = qc ∧
       extra_redundant_fakequants self = extra) ∧
  (is_per_channel (a_qscheme qc) = true →
   ∃ s,
     __init__ gq nom tracer extra blank = (Py.Raise Py.AssertionError, s) ∧
     s = set_qconfig qc (set_tracer tr blank) ∧
     a_qconfig_mapping s = None ∧
     a_no_observer_modules s = None ∧
     a_backend_config s = None).
Proof.
  intros Htr Hqc. split.
  - intros Ha mods bc Hmods Hbc.
    eexists _, _. split; [by eapply __init___returns|]. by cbn.
  - intros Ha. eexists. split; [by eapply __init___rejects|]. by cbn.
Qed.


(** C7. [prepare_for_mmdeploy] raises [NotImplementedError] for every
    model, input and checkpoint, and leaves the state it was called in
    untouched. *)
Theorem prepare_for_mmdeploy_not_implemented {Model Input S : Type}
    (self : NativeQuantizer) (model : Model) (dummy_input : Input)
    (checkpoint : option string) (state : S) :
  prepare_for_mmdeploy self model dummy_input checkpoint state
  = (Py.Raise Py.NotImplementedError, state).
Proof. reflexivity. Qed.

(** C10. The query properties are constants of the class: [backend] is
    ['native'], [support_w_modes] is [['per_tensor', 'per_channel']],
    [support_a_modes] is [['per_tensor']] and the eight base lists are
    empty tuples, on every instance. *)
Theorem exposed_properties (self : NativeQuantizer) :
  backend self = "native" ∧
  support_w_modes self = ["per_tensor"; "per_channel"] ∧
  support_a_modes self = ["per_tensor"] ∧
  module_prev_wo_fakequant self = [] ∧
  module_next_wo_fakequant self = [] ∧
  function_prev_wo_fakequant self = [] ∧
  function_next_wo_fakequant self = [] ∧
  method_prev_wo_fakequant self = [] ∧
  method_next_wo_fakequant self = [] ∧
  op_prev_wo_fakequant self = [] ∧
  op_next_wo_fakequant self = [].
Proof. repeat split. Qed.

(** *** Weight fake-quant folding *)

Abbreviation nn := (nn_module Tensor QConfig FakeQuantState).

Lemma isinstance_plain name :
  isinstance (Plain name) (SUPPORT_QAT_MODULES torch_ge_1_13) = false.
Proof. unfold SUPPORT_QAT_MODULES. by destruct torch_ge_1_13. Qed.

Lemma merge_entry cls cls' :
  dict_get (MERGE_BN_MAPPINGS torch_ge_1_13) cls = Some cls' →
  ∃ c c', cls = Qat c ∧ cls' = Qat c' ∧ has_bn c = true ∧ has_bn c' = false.
Proof.
  unfold MERGE_BN_MAPPINGS. destruct torch_ge_1_13; [|done]. simpl.
  repeat case_decide; intros; simplify_eq; by eexists _, _.
Qed.

Lemma merge_target_not_plain cls name :
  isinstance cls (SUPPORT_QAT_MODULES torch_ge_1_13) = true →
  merge_target cls ≠ Plain name.
Proof.
  intros Hsup. unfold merge_target.
  destruct (dict_get _ cls) as [cls'|] eqn:Hm; simpl.
  - apply merge_entry in Hm as (c & c' & _ & -> & _). done.
  - intros ->. by rewrite isinstance_plain in Hsup.
Qed.

Lemma convert_child_float self cls w wfq q ch t :
  convert_child self false (Module cls w wfq q ch) t
  = (Py.Ok (to_float (Module cls (fake_quant_forward wfq w).1
                             (fake_quant_forward wfq w).2 q ch)),
     t ++ [Weight_fake_quant cls w; To_float cls]).
Proof.
  unfold convert_child, call_weight_fake_quant, emit, set_weight. py_unfold.
  cbn. destruct (fake_quant_forward wfq w) as [w1 wfq1]. cbn.
  by rewrite <- app_assoc.
Qed.

Lemma convert_child_keep self cls w wfq q ch t :
  convert_child self true (Module cls w wfq q ch) t
  = match from_float (merge_target cls)
            (set_qconfig_all (convert (qconfig self))
               (to_float (Module cls (fake_quant_forward wfq w).1
                                 (fake_quant_forward wfq w).2 q ch))) with
    | Module c2 w2 f2 q2 ch2 =>
        (Py.Ok (Module c2 w2 (fake_quant_forward f2 w2).2 q2 ch2),
         t ++ [Weight_fake_quant cls w; To_float cls;
               From_float (merge_target cls); Weight_fake_quant c2 w2])
    | FakeQuantize _ =>
        (Py.Raise (Py.External "AttributeError"),
         t ++ [Weight_fake_quant cls w; To_float cls;
               From_float (merge_target cls)])
    end.
Proof.
  unfold convert_child, call_weight_fake_quant, emit, set_weight, merge_target.
  py_unfold. cbn. destruct (fake_quant_forward wfq w) as [w1 wfq1]. cbn.
  destruct (dict_get _ cls) as [cls'|]; cbn.
  - destruct (from_float cls' _) as [fq|c2 w2 f2 q2 ch2]; cbn.
    + by rewrite <- !app_assoc.
    + destruct (fake_quant_forward f2 w2). cbn. by rewrite <- !app_assoc.
  - destruct (from_float cls _) as [fq|c2 w2 f2 q2 ch2]; cbn.
    + by rewrite <- !app_assoc.
    + destruct (fake_quant_forward f2 w2). cbn. by rewrite <- !app_assoc.
Qed.

(** Induction on module trees: a property of every child gives the
    property of the parent. *)
Lemma nn_module_tree_ind (P : nn → Prop) :
  (∀ fq, P (FakeQuantize fq)) →
  (∀ cls w wfq q ch, Forall (λ c, P c.2) ch → P (Module cls w wfq q ch)) →
  ∀ m, P m.
Proof.
  intros Hleaf Hnode. fix IH 1. intros [fq|cls w wfq q ch]; [apply Hleaf|].
  apply Hnode. induction ch as [|[name child] ch IHch]; constructor.
  - apply IH.
  - apply IHch.
Qed.

Lemma weight_fake_quants_app t1 t2 :
  weight_fake_quants (t1 ++ t2) = weight_fake_quants t1 + weight_fake_quants t2.
Proof. unfold weight_fake_quants. by rewrite List.filter_app, length_app. Qed.

Lemma for_children_counts (step : nn → Py.M (list qat_event) nn)
    (count : nn → nat) cs :
  Forall (λ c, ∀ t, ∃ m' t',
            step c.2 t = (Py.Ok m', t ++ t') ∧
            weight_fake_quants t' = count c.2) cs →
  ∀ t, ∃ cs' t',
    for_children step cs t = (Py.Ok cs', t ++ t') ∧
    weight_fake_quants t' = sum_list_with (λ c, count c.2) cs.
Proof.
  induction 1 as [|[name child] cs Hchild _ IH]; intros t.
  - exists [], []. by rewrite app_nil_r.
  - destruct (Hchild t) as (m' & t1 & Hstep & Hn1).
    destruct (IH (t ++ t1)) as (cs' & t2 & Hrest & Hn2).
    exists ((name, m') :: cs'), (t1 ++ t2). split.
    + cbn [for_children]. py_unfold. cbn [snd] in Hstep.
      rewrite Hstep. fold (for_children step). rewrite Hrest.
      by rewrite app_assoc.
    + rewrite weight_fake_quants_app. cbn [sum_list_with snd] in *. lia.
Qed.

Lemma convert_child_counts self keep child t :
  (∀ c m, type_of (from_float c m) = c) →
  isinstance (type_of child) (SUPPORT_QAT_MODULES torch_ge_1_13) = true →
  ∃ m' t',
    convert_child self keep child t = (Py.Ok m', t ++ t') ∧
    weight_fake_quants t' = if keep then 2 else 1.
Proof.
  intros Hfrom Hsup. destruct child as [fq|cls w wfq q ch].
  { cbn [type_of] in Hsup. by rewrite isinstance_plain in Hsup. }
  cbn [type_of] in Hsup. destruct keep.
  - rewrite convert_child_keep.
    destruct (from_float _ _) as [fq|c2 w2 f2 q2 ch2] eqn:Hmade.
    + exfalso. apply (merge_target_not_plain cls "FakeQuantize" Hsup).
      pose proof (f_equal type_of Hmade) as Hty. by rewrite Hfrom in Hty.
    + by eexists _, _.
  - rewrite convert_child_float. by eexists _, _.
Qed.

Lemma sum_list_with_scale {A} (f : A → nat) k l :
  sum_list_with (λ x, k * f x) l = k * sum_list_with f l.
Proof. induction l as [|x l IH]; simpl; lia. Qed.

Lemma traverse_counts self keep :
  (∀ c m, type_of (from_float c m) = c) →
  ∀ m t, ∃ m' t',
    traverse self keep m t = (Py.Ok m', t ++ t') ∧
    type_of m' = type_of m ∧
    weight_fake_quants t' = (if keep then 2 else 1) * converted m.
Proof.
  intros Hfrom m. induction m as [fq|cls w wfq q ch IH] using nn_module_tree_ind;
    intros t.
  - exists (FakeQuantize fq), []. by rewrite app_nil_r.
  - destruct (for_children_counts
      (λ child,
         if isinstance (type_of child) (SUPPORT_QAT_MODULES torch_ge_1_13)
         then convert_child self keep child
         else traverse self keep child)
      (λ child, (if keep then 2 else 1) *
         (if isinstance (type_of child) (SUPPORT_QAT_MODULES torch_ge_1_13)
          then 1 else converted child)) ch) with t
      as (ch' & t' & Hrun & Hn).
    { eapply Forall_impl; [exact IH|]. intros [name child] IHc t0. cbn [snd] in *.
      destruct (isinstance _ _) eqn:Hsup.
      - destruct (convert_child_counts self keep child t0 Hfrom Hsup)
          as (m' & t1 & Hrun & Hn).
        exists m', t1. split; [done|]. rewrite Hn. by destruct keep.
      - destruct (IHc t0) as (m' & t1 & Hrun & _ & Hn).
        exists m', t1. split; [done|]. by rewrite Hn. }
    exists (Module cls w wfq q ch'), t'. split; [|split; [done|]].
    + cbn [traverse]. py_unfold. by rewrite Hrun.
    + rewrite Hn. cbn [converted].
      by rewrite (sum_list_with_scale
        (λ c, if isinstance (type_of c.2) (SUPPORT_QAT_MODULES torch_ge_1_13)
              then 1 else converted c.2)).
Qed.

Lemma type_of_apply_enable_fake_quant (m : nn) :
  type_of (apply_enable_fake_quant m) = type_of m.
Proof. by destruct m. Qed.

Lemma converted_apply_enable_fake_quant (m : nn) :
  converted (apply_enable_fake_quant m) = converted m.
Proof.
  induction m as [fq|cls w wfq q ch IH] using nn_module_tree_ind; [done|].
  cbn [apply_enable_fake_quant converted].
  induction IH as [|[name child] ch Hc _ IHch]; [done|].
  cbn [map sum_list_with fst snd] in *.
  by rewrite type_of_apply_enable_fake_quant, Hc, IHch.
Qed.

Lemma merge_entry_supported cls cls' :
  dict_get (MERGE_BN_MAPPINGS torch_ge_1_13) cls = Some cls' →
  isinstance cls (SUPPORT_QAT_MODULES torch_ge_1_13) = true.
Proof.
  unfold MERGE_BN_MAPPINGS, SUPPORT_QAT_MODULES.
  destruct torch_ge_1_13; [|done]. simpl.
  repeat case_decide; intros; by simplify_eq.
Qed.

(** C3. Given that [from_float] builds an instance of the class it is
    called on: for a child that is an instance of [SUPPORT_QAT_MODULES],
    the child's weight fake-quant is invoked once on the stored weight and
    [to_float] then folds the module whose weight is the fake-quantized
    result; with [keep_fake_quant=False] that is the only invocation, with
    [keep_fake_quant=True] there is exactly one more, by the rebuilt
    module on the rebuilt module's weight, after [to_float] and
    [from_float].  Over a whole tree the method returns and invokes weight
    fake-quant once, respectively twice, per converted child. *)
Theorem weight_fake_quant_invocations self :
  (∀ c m, type_of (from_float c m) = c) →
  (∀ cls w wfq q ch t,
     isinstance cls (SUPPORT_QAT_MODULES torch_ge_1_13) = true →
     let pre := fake_quant_forward wfq w in
     let float_child := to_float (Module cls pre.1 pre.2 q ch) in
     let made := from_float (merge_target cls)
                   (set_qconfig_all (convert (qconfig self)) float_child) in
     convert_child self false (Module cls w wfq q ch) t
     = (Py.Ok float_child, t ++ [Weight_fake_quant cls w; To_float cls]) ∧
     ∃ new w2,
       weight_of made = Some w2 ∧
       convert_child self true (Module cls w wfq q ch) t
       = (Py.Ok new,
          t ++ [Weight_fake_quant cls w; To_float cls;
                From_float (merge_target cls);
                Weight_fake_quant (merge_target cls) w2])) ∧
  (∀ keep m t, ∃ m' t',
     post_process_weight_fakequant self m keep t = (Py.Ok m', t ++ t') ∧
     weight_fake_quants t' = (if keep then 2 else 1) * converted m).
Proof.
  intros Hfrom. split.
  - intros cls w wfq q ch t Hsup pre float_child made.
    split; [apply convert_child_float|].
    rewrite convert_child_keep. fold pre float_child made.
    pose proof (Hfrom (merge_target cls)
                  (set_qconfig_all (convert (qconfig self)) float_child)) as Hty.
    fold made in Hty.
    destruct made as [fq|c2 w2 f2 q2 ch2].
    + exfalso. by apply (merge_target_not_plain cls "FakeQuantize" Hsup).
    + cbn [type_of] in Hty. subst c2. by eexists _, _.
  - intros keep m t. unfold post_process_weight_fakequant.
    destruct (traverse_counts self keep Hfrom (apply_enable_fake_quant m) t)
      as (m' & t' & Hrun & _ & Hn).
    exists m', t'. split; [done|].
    by rewrite Hn, converted_apply_enable_fake_quant.
Qed.

(** The conversion of one child whose type is a key of
    [MERGE_BN_MAPPINGS], and what the table holds. *)
Lemma convert_child_merged self cls cls' w wfq q ch t :
  (∀ c m, type_of (from_float c m) = c) →
  dict_get (MERGE_BN_MAPPINGS torch_ge_1_13) cls = Some cls' →
  isinstance cls (SUPPORT_QAT_MODULES torch_ge_1_13) = true ∧
  (∃ new t',
     convert_child self true (Module cls w wfq q ch) t = (Py.Ok new, t') ∧
     type_of new = cls') ∧
  (∃ c c', cls = Qat c ∧ cls' = Qat c' ∧ has_bn c = true ∧ has_bn c' = false) ∧
  (torch_ge_1_13 = true →
   (∀ c, has_bn c = true →
         is_Some (dict_get (MERGE_BN_MAPPINGS torch_ge_1_13) (Qat c))) ∧
   dict_get (MERGE_BN_MAPPINGS torch_ge_1_13) (Qat ConvBnReLU2d)
   = Some (Qat ConvReLU2d) ∧
   dict_get (MERGE_BN_MAPPINGS torch_ge_1_13) (Qat LinearBn1d)
   = Some (Qat Linear)).
Proof.
  intros Hfrom Hentry.
  split; [by eapply merge_entry_supported|].
  split; [|split; [by apply merge_entry|]].
  - rewrite convert_child_keep.
    assert (merge_target cls = cls') as Htarget
      by (unfold merge_target; by rewrite Hentry).
    rewrite Htarget.
    destruct (from_float cls' _) as [fq|c2 w2 f2 q2 ch2] eqn:Hmade.
    + exfalso. pose proof (f_equal type_of Hmade) as Hty.
      rewrite Hfrom in Hty. cbn in Hty.
      apply merge_entry in Hentry as (? & ? & _ & -> & _). done.
    + pose proof (f_equal type_of Hmade) as Hty. rewrite Hfrom in Hty.
      eexists _, _. split; [done|]. done.
  - intros ->. split; [|done]. intros c Hc. by destruct c.
Qed.

(** C9. With [keep_fake_quant=True], what the second weight fake-quant
    call returns is dropped: the replacement has the weight, the type and
    the children [from_float] gave it, and the call, the last thing the
    conversion does, was made on that very weight.  The first call is
    different: the module handed to [to_float] has the fake-quantized
    tensor as its weight. *)
Theorem second_fake_quant_result_discarded self cls w wfq q ch t new t' :
  convert_child self true (Module cls w wfq q ch) t = (Py.Ok new, t') →
  let pre := fake_quant_forward wfq w in
  let float_child := to_float (Module cls pre.1 pre.2 q ch) in
  let made := from_float (merge_target cls)
                (set_qconfig_all (convert (qconfig self)) float_child) in
  weight_of new = weight_of made ∧
  type_of new = type_of made ∧
  named_children new = named_children made ∧
  (∃ w2, weight_of made = Some w2 ∧
         last t' = Some (Weight_fake_quant (type_of made) w2)) ∧
  convert_child self false (Module cls w wfq q ch) t
  = (Py.Ok float_child, t ++ [Weight_fake_quant cls w; To_float cls]).
Proof.
  intros Hrun pre float_child made.
  rewrite convert_child_keep in Hrun. fold pre float_child made in Hrun.
  destruct made as [fq|c2 w2 f2 q2 ch2]; [done|].
  injection Hrun as <- <-.
  repeat split; [|apply convert_child_float].
  exists w2. split; [done|]. cbn [type_of]. by rewrite last_app.
Qed.

End MethodFacts.

(** ** More of what the methods do *)

Section Coverage.

Context `{Collaborators}.

Abbreviation nn := (nn_module Tensor QConfig FakeQuantState).

(** *** Construction, step by step *)

(** X1. Construction returns exactly when every step before the end goes
    through: the tracer is built, [global_qconfig] is resolved, its
    activation scheme is per-tensor, the names of a non-empty
    [no_observer_modules] resolve, and the backend table has the [native]
    entry; the weight scheme plays no part.  The attributes are then the
    ones listed by [constructed]. *)
Theorem construction_returns_iff gq nom tracer extra s :
  __init__ gq nom tracer extra blank = (Py.Ok tt, s) ↔
  ∃ tr qc mods bc,
    BaseQuantizer__init__ tracer = Py.Ok tr ∧
    QConfigHander gq = Py.Ok qc ∧
    is_per_channel (a_qscheme qc) = false ∧
    resolves nom mods ∧
    BackendConfigs !! "native" = Some bc ∧
    s = constructed tr qc nom mods bc extra.
Proof.
  split.
  - apply __init___returned.
  - intros (tr & qc & mods & bc & Htr & Hqc & Ha & Hmods & Hbc & ->).
    by apply __init___returns.
Qed.

(** X2. A collaborator's exception leaves [__init__] unchanged and stops it
    where it is: a failing tracer build leaves no attribute assigned, a
    failing qconfig resolution leaves [tracer] only, and a name that
    [str2class] cannot resolve is met after the mapping was created with its
    global entry, before any type is registered and before
    [no_observer_modules] is assigned. *)
Theorem construction_stops_at_first_failure gq nom tracer extra :
  (∀ e, BaseQuantizer__init__ tracer = Py.Raise e →
        __init__ gq nom tracer extra blank = (Py.Raise e, blank)) ∧
  (∀ tr e, BaseQuantizer__init__ tracer = Py.Ok tr →
           QConfigHander gq = Py.Raise e →
           __init__ gq nom tracer extra blank
           = (Py.Raise e, set_tracer tr blank)) ∧
  (∀ tr qc e,
     BaseQuantizer__init__ tracer = Py.Ok tr →
     QConfigHander gq = Py.Ok qc →
     is_per_channel (a_qscheme qc) = false →
     truthy nom = true →
     str2class (default [] nom) = Py.Raise e →
     __init__ gq nom tracer extra blank
     = (Py.Raise e,
        set_qconfig_mapping (set_global QConfigMapping_new (convert qc))
          (set_qconfig qc (set_tracer tr blank)))).
Proof.
  split; [|split].
  - intros e Htr. unfold __init__. py_unfold. by rewrite Htr.
  - intros tr e Htr Hqc. unfold __init__. py_unfold. by rewrite Htr, Hqc.
  - intros tr qc e Htr Hqc Ha Hnom Hs. unfold __init__. py_unfold.
    rewrite Htr, Hqc. cbn [fst snd].
    by rewrite w_mode_supported, a_mode_supported, Ha, Hnom, Hs.
Qed.

(** X3. Without a [native] entry in the backend table construction raises
    [KeyError('native')], and it does so late: the qconfig mapping is
    complete, with every listed type registered, while [backend_config],
    [example_inputs] and [extra_redundant_fakequants] are not assigned. *)
Theorem construction_needs_native_backend gq nom tracer extra tr qc mods :
  BaseQuantizer__init__ tracer = Py.Ok tr →
  QConfigHander gq = Py.Ok qc →
  is_per_channel (a_qscheme qc) = false →
  resolves nom mods →
  BackendConfigs !! "native" = None →
  ∃ s,
    __init__ gq nom tracer extra blank = (Py.Raise (Py.KeyError "native"), s) ∧
    a_qconfig_mapping s
    = Some (register_all mods (set_global QConfigMapping_new (convert qc))) ∧
    a_backend_config s = None ∧
    a_example_inputs s = None ∧
    a_extra_redundant_fakequants s = None.
Proof.
  intros Htr Hqc Ha Hmods Hbc. unfold __init__, resolves in *. py_unfold.
  rewrite Htr, Hqc. cbn [fst snd].
  rewrite w_mode_supported, a_mode_supported, Ha. cbn [negb].
  destruct (truthy nom) eqn:Hnom.
  - rewrite Hmods. cbn beta iota.
    erewrite for_each_register by reflexivity.
    unfold backend. rewrite Hbc. by eexists.
  - subst mods. unfold backend. rewrite Hbc. by eexists.
Qed.

(** *** The pruner and its tuples *)

Ltac unfold_base_tuples :=
  unfold module_prev_wo_fakequant, module_next_wo_fakequant,
    function_prev_wo_fakequant, function_next_wo_fakequant,
    method_prev_wo_fakequant, method_next_wo_fakequant,
    op_prev_wo_fakequant, op_next_wo_fakequant;
  cbn [app Fx.run fold_left fst snd].

Lemma matches_nil k c : Fx.matches k [] c = false.
Proof. by destruct k, c. Qed.

Lemma redundant_nil s k g a : Fx.redundant s k [] g a = false.
Proof.
  unfold Fx.redundant. destruct (Fx.fq_source g a) as [b|]; [|done].
  destruct s.
  - induction g as [|n g IH]; simpl; [done|]. by rewrite matches_nil.
  - destruct (Fx.node_at g b); [apply matches_nil|done].
Qed.

(** A pass with an empty tuple leaves every graph as it is. *)
Lemma del_fakequant_nil s k g : Fx.del_fakequant s k [] g = g.
Proof. apply FxFacts.del_fakequant_clean. intros a. apply redundant_nil. Qed.

(** X4. When none of the eight keys carries an entry (the default
    argument, an empty dict, or a dict whose keys are all misspelled), the
    eight calls are still made, but the graph module comes back untouched,
    whatever its graph: the base tuples of this class are empty. *)
Theorem del_redundant_fakequant_nothing_registered self prepared w g :
  objects w !! prepared = Some g →
  (∀ key, key ∈ recognized_keys →
          get_or_empty (extra_redundant_fakequants self) key = []) →
  del_redundant_fakequant self prepared w
  = (Py.Ok prepared, Store (objects w) (calls w ++ del_calls self prepared)) ∧
  length (del_calls self prepared) = 8.
Proof.
  intros Hg Hkeys. split; [|done].
  rewrite (del_redundant_fakequant_spec _ _ _ g) by done.
  assert (Fx.run (passes self) g = g) as ->.
  { unfold passes. cbv zeta.
    rewrite !Hkeys by (unfold recognized_keys; set_solver).
    unfold_base_tuples. by rewrite !del_fakequant_nil. }
  by rewrite insert_id.
Qed.

Ltac route Hextra :=
  unfold passes, get_or_empty; rewrite Hextra; cbv zeta;
  rewrite !lookup_singleton;
  repeat match goal with
    | |- context [decide (?a = ?b)] =>
        first [ rewrite (decide_True (P := a = b)) by reflexivity
              | rewrite (decide_False (P := a = b)) by discriminate ]
    end;
  cbn [default]; unfold_base_tuples; by rewrite !del_fakequant_nil.

(** X5. With a single key set, the method is one pass.  The module and
    operator keys reach the pass of their own name.  The two function keys
    reach the method passes (tuple [ps] is matched against method calls)
    and the two method keys reach the function passes. *)
Theorem single_key_routing self ps g :
  let only key := extra_redundant_fakequants self = {[ key := ps ]} in
  let leaves g' :=
    ∀ prepared w, objects w !! prepared = Some g →
      (del_redundant_fakequant self prepared w).1 = Py.Ok prepared ∧
      objects (del_redundant_fakequant self prepared w).2
      = <[prepared := g']> (objects w) in
  (only "extra_module_prev_wo_fakequant" →
   leaves (Fx.del_fakequant Fx.before Fx.module ps g)) ∧
  (only "extra_module_next_wo_fakequant" →
   leaves (Fx.del_fakequant Fx.after Fx.module ps g)) ∧
  (only "extra_function_prev_wo_fakequant" →
   leaves (Fx.del_fakequant Fx.before Fx.method ps g)) ∧
  (only "extra_function_next_wo_fakequant" →
   leaves (Fx.del_fakequant Fx.after Fx.method ps g)) ∧
  (only "extra_method_prev_wo_fakequant" →
   leaves (Fx.del_fakequant Fx.before Fx.function ps g)) ∧
  (only "extra_method_next_wo_fakequant" →
   leaves (Fx.del_fakequant Fx.after Fx.function ps g)) ∧
  (only "extra_op_prev_wo_fakequant" →
   leaves (Fx.del_fakequant Fx.before Fx.op ps g)) ∧
  (only "extra_op_next_wo_fakequant" →
   leaves (Fx.del_fakequant Fx.after Fx.op ps g)).
Proof.
  intros only leaves.
  assert (∀ g', Fx.run (passes self) g = g' → leaves g') as Hleaves.
  { intros g' <- prepared w Hg.
    by rewrite (del_redundant_fakequant_spec _ _ _ g). }
  repeat (match goal with |- _ ∧ _ => apply conj end);
    intros Hextra; apply Hleaves; unfold only in Hextra; route Hextra.
Qed.

(** X6. On a graph with at most one fake-quant node per edge, the graph the
    method leaves still has at most one per edge, and none of the eight
    passes, with the tuple the method gave it, would find a fake-quant node
    to delete in it. *)
Theorem del_redundant_fakequant_leaves_nothing_redundant self prepared w g :
  objects w !! prepared = Some g →
  Fx.single_fake_quant g = true →
  ∃ g',
    objects (del_redundant_fakequant self prepared w).2 !! prepared = Some g' ∧
    Fx.unchained g' ∧
    ∀ p a, p ∈ passes self → Fx.redundant p.1.1 p.1.2 p.2 g' a = false.
Proof.
  intros Hg Hinv. apply FxFacts.single_fake_quant_unchained in Hinv.
  exists (Fx.run (passes self) g).
  rewrite (del_redundant_fakequant_spec _ _ _ g) by done.
  split; [apply lookup_insert_eq|].
  split; [by apply FxFacts.unchained_run|].
  intros p a Hp. apply list_elem_of_In in Hp.
  by apply (FxFacts.clean_after_run (passes self) g p).
Qed.

Lemma outline_erase doomed σ (l : Fx.graph) :
  outline (map (Fx.relink σ)
             (List.filter (λ n, negb (doomed (Fx.name n))) l))
  `sublist_of` outline l.
Proof.
  induction l as [|n l IH]; simpl; [done|].
  destruct (doomed (Fx.name n)); simpl.
  - by apply sublist_cons.
  - by apply sublist_skip.
Qed.

Lemma outline_run ps g : outline (Fx.run ps g) `sublist_of` outline g.
Proof.
  revert g. induction ps as [|p ps IH]; intros g; simpl; [done|].
  etrans; [apply IH|]. apply outline_erase.
Qed.

Lemma node_at_unique (g : Fx.graph) n :
  NoDup (map Fx.name g) → n ∈ g → Fx.node_at g (Fx.name n) = Some n.
Proof.
  unfold Fx.node_at. induction g as [|m g IH]; intros Hnd Hin.
  - by apply not_elem_of_nil in Hin.
  - simpl in *. apply NoDup_cons in Hnd as [Hm Hnd].
    apply elem_of_cons in Hin as [->|Hin].
    + by rewrite bool_decide_eq_true_2.
    + rewrite bool_decide_eq_false_2; [by apply IH|].
      intros Heq. apply Hm. rewrite Heq. by apply list_elem_of_fmap_2.
  Qed.

Lemma keeps_calls_erase doomed σ (l : Fx.graph) :
  (∀ n, n ∈ l → doomed (Fx.name n) = true → Fx.what n = Fx.fake_quant) →
  keeps_calls (outline (map (Fx.relink σ)
                 (List.filter (λ n, negb (doomed (Fx.name n))) l)))
  = keeps_calls (outline l).
Proof.
  induction l as [|n l IH]; intros Hfq; simpl; [done|].
  assert (keeps_calls (outline (map (Fx.relink σ)
            (List.filter (λ n, negb (doomed (Fx.name n))) l)))
          = keeps_calls (outline l)) as IH'.
  { apply IH. intros m Hm. apply Hfq. by right. }
  destruct (doomed (Fx.name n)) eqn:Hd; simpl.
  - rewrite (Hfq n) by (done || by left). simpl. apply IH'.
  - unfold keeps_calls in *. simpl. by rewrite IH'.
Qed.

Lemma keeps_calls_del_fakequant s k ps g :
  NoDup (map Fx.name g) →
  keeps_calls (outline (Fx.del_fakequant s k ps g)) = keeps_calls (outline g).
Proof.
  intros Hnd. unfold Fx.del_fakequant, Fx.erase. apply keeps_calls_erase.
  intros n Hn Hd. apply FxFacts.redundant_fq_only in Hd as [b Hb].
  unfold Fx.fq_source in Hb. rewrite (node_at_unique g n) in Hb by done.
  simpl in Hb. unfold Fx.fq_input in Hb. by destruct (Fx.what n).
Qed.

Lemma names_outline g : map Fx.name g = (outline g).*1.
Proof. unfold outline. by rewrite <- list_fmap_compose. Qed.

Lemma NoDup_del_fakequant s k ps g :
  NoDup (map Fx.name g) → NoDup (map Fx.name (Fx.del_fakequant s k ps g)).
Proof.
  rewrite !names_outline. intros Hnd.
  eapply sublist_NoDup; [done|]. apply fmap_sublist, outline_erase.
Qed.

Lemma keeps_calls_run ps g :
  NoDup (map Fx.name g) →
  keeps_calls (outline (Fx.run ps g)) = keeps_calls (outline g).
Proof.
  revert g. induction ps as [|p ps IH]; intros g Hnd; simpl; [done|].
  rewrite IH by by apply NoDup_del_fakequant.
  by apply keeps_calls_del_fakequant.
Qed.

(** X7. The method only ever takes fake-quant nodes away.  On any graph,
    the names and calls of the nodes it leaves are a subsequence of the
    original ones: nothing is added, reordered, renamed or turned into
    another call.  When node names are distinct, every node that is not a
    fake-quant node is still there. *)
Theorem del_redundant_fakequant_only_removes self prepared w g :
  objects w !! prepared = Some g →
  ∃ g',
    objects (del_redundant_fakequant self prepared w).2 !! prepared = Some g' ∧
    outline g' `sublist_of` outline g ∧
    (NoDup (map Fx.name g) →
     keeps_calls (outline g') = keeps_calls (outline g)).
Proof.
  intros Hg. exists (Fx.run (passes self) g).
  rewrite (del_redundant_fakequant_spec _ _ _ g) by done.
  split; [apply lookup_insert_eq|].
  split; [apply outline_run|apply keeps_calls_run].
Qed.

(** *** [prepare], step by step *)

Lemma prepare_run {Model} self (model : Model) graph_module w :
  let bc := backend_config self in
  let fuse := Called_fuse_fx graph_module true bc in
  prepare self model graph_module w
  = match _fuse_fx graph_module true bc (objects w) with
    | (Py.Raise e, o1) => (Py.Raise e, Store o1 (calls w ++ [fuse]))
    | (Py.Ok fused, o1) =>
        let observe :=
          Called_prepare fused (qconfig_mapping self) true
            (node_name_to_scope (tracer self)) (example_inputs self) bc in
        match fx_prepare fused (qconfig_mapping self) true
                (node_name_to_scope (tracer self)) (example_inputs self) bc o1 with
        | (Py.Raise e, o2) => (Py.Raise e, Store o2 (calls w ++ [fuse; observe]))
        | (Py.Ok prepared, o2) =>
            del_redundant_fakequant self prepared
              (Store o2 (calls w ++ [fuse; observe]))
        end
    end.
Proof.
  intros bc fuse. unfold prepare, log, external. py_unfold.
  cbn [objects calls]. fold bc.
  destruct (_fuse_fx graph_module true bc (objects w)) as [[fused|e] o1];
    [|done].
  cbn [objects calls].
  destruct (fx_prepare _ _ _ _ _ _ _) as [[prepared|e] o2];
    rewrite <- app_assoc; [|done].
  by destruct (del_redundant_fakequant _ _ _) as [[r|e] w'].
Qed.

(** X8. [prepare] hands on what a collaborator raises and does nothing
    after it: when fusion raises, observer insertion and the pruner are
    never called; when observer insertion raises, the pruner is never
    called.  The graph modules are left as the failing collaborator left
    them. *)
Theorem prepare_propagates_failures {Model} self (model : Model) graph_module w :
  let bc := backend_config self in
  let fuse := Called_fuse_fx graph_module true bc in
  (∀ e o1,
     _fuse_fx graph_module true bc (objects w) = (Py.Raise e, o1) →
     prepare self model graph_module w
     = (Py.Raise e, Store o1 (calls w ++ [fuse]))) ∧
  (∀ fused o1 e o2,
     _fuse_fx graph_module true bc (objects w) = (Py.Ok fused, o1) →
     fx_prepare fused (qconfig_mapping self) true
       (node_name_to_scope (tracer self)) (example_inputs self) bc o1
     = (Py.Raise e, o2) →
     prepare self model graph_module w
     = (Py.Raise e,
        Store o2 (calls w ++
          [fuse;
           Called_prepare fused (qconfig_mapping self) true
             (node_name_to_scope (tracer self)) (example_inputs self) bc]))).
Proof.
  intros bc fuse. split.
  - intros e o1 Hfuse. rewrite prepare_run. fold bc. by rewrite Hfuse.
  - intros fused o1 e o2 Hfuse Hobs. rewrite prepare_run. fold bc.
    by rewrite Hfuse, Hobs.
Qed.

(** X9. With nothing registered under the eight keys (the default), what
    [prepare] returns is the observed graph module exactly as torch's
    [prepare] produced it: the pruner is called and changes nothing. *)
Theorem prepare_default_returns_observed_graph {Model} self (model : Model)
    graph_module w fused o1 prepared o2 g :
  (∀ key, key ∈ recognized_keys →
          get_or_empty (extra_redundant_fakequants self) key = []) →
  _fuse_fx graph_module true (backend_config self) (objects w)
  = (Py.Ok fused, o1) →
  fx_prepare fused (qconfig_mapping self) true
    (node_name_to_scope (tracer self)) (example_inputs self)
    (backend_config self) o1
  = (Py.Ok prepared, o2) →
  o2 !! prepared = Some g →
  (prepare self model graph_module w).1 = Py.Ok prepared ∧
  objects (prepare self model graph_module w).2 = o2.
Proof.
  intros Hkeys Hfuse Hobs Hg. rewrite prepare_run, Hfuse, Hobs.
  rewrite (del_redundant_fakequant_spec _ _ _ g) by done.
  assert (Fx.run (passes self) g = g) as ->.
  { unfold passes. cbv zeta.
    rewrite !Hkeys by (unfold recognized_keys; set_solver).
    unfold_base_tuples. by rewrite !del_fakequant_nil. }
  cbn [fst snd objects]. by rewrite insert_id.
Qed.

Lemma prepare_calls_after_fuse {Model} self (model : Model) graph_module w
    fused o1 :
  _fuse_fx graph_module true (backend_config self) (objects w)
  = (Py.Ok fused, o1) →
  ∃ rest,
    calls (prepare self model graph_module w).2
    = calls w ++ Called_fuse_fx graph_module true (backend_config self)
        :: Called_prepare fused (qconfig_mapping self) true
             (node_name_to_scope (tracer self)) (example_inputs self)
             (backend_config self)
        :: rest.
Proof.
  intros Hfuse. rewrite prepare_run, Hfuse. cbv zeta.
  destruct (fx_prepare _ _ _ _ _ _ _) as [[prepared|e] o2].
  - destruct (o2 !! prepared) as [g|] eqn:Hg.
    + rewrite (del_redundant_fakequant_spec _ _ _ g) by done.
      eexists. cbn [snd calls]. by rewrite <- app_assoc.
    + match goal with
      | |- context [del_redundant_fakequant ?q ?r ?st] =>
          destruct (del_redundant_fakequant_dangling q r st)
            as (e & first & -> & _); [done|]
      end.
      eexists. cbn [snd calls]. by rewrite <- app_assoc.
  - by exists [].
Qed.

(** X10. The types listed in [no_observer_modules] at construction are the
    ones torch's [prepare] is told to leave unobserved: the instance that
    construction leaves calls observer insertion with a mapping whose
    global entry is [qconfig.convert()] and which gives [None] to every
    listed type, with the backend configuration found under [native] and
    with one example input made by [randn(1, 3, 224, 224)]. *)
Theorem no_observer_types_reach_observer_insertion {Model}
    gq nom tracer_cfg extra s (model : Model) graph_module w fused o1 :
  __init__ gq nom tracer_cfg extra blank = (Py.Ok tt, s) →
  ∃ self qc mods,
    instance s = Some self ∧
    QConfigHander gq = Py.Ok qc ∧
    resolves nom mods ∧
    BackendConfigs !! "native" = Some (backend_config self) ∧
    (_fuse_fx graph_module true (backend_config self) (objects w)
     = (Py.Ok fused, o1) →
     ∃ m rest,
       calls (prepare self model graph_module w).2
       = calls w ++ Called_fuse_fx graph_module true (backend_config self)
           :: Called_prepare fused m true (node_name_to_scope (tracer self))
                [randn [1; 3; 224; 224]] (backend_config self)
           :: rest ∧
       global_qconfig m = Some (convert qc) ∧
       ∀ t, t ∈ mods → qconfig_of m t = None).
Proof.
  intros Hrun.
  apply __init___returned in Hrun
    as (tr & qc & mods & bc & Htr & Hqc & Ha & Hmods & Hbc & ->).
  eexists _, qc, mods. split; [reflexivity|]. cbn [backend_config].
  split; [done|]. split; [done|]. split; [done|].
  intros Hfuse.
  match goal with
  | |- context [prepare ?q model graph_module w] =>
      destruct (prepare_calls_after_fuse q model graph_module w fused o1 Hfuse)
        as [rest Hrest]
  end.
  cbn [qconfig_mapping tracer example_inputs backend_config] in Hrest.
  eexists _, rest. split; [exact Hrest|].
  split; [by rewrite register_all_global|].
  intros t Ht. unfold qconfig_of. rewrite register_all_lookup.
  by rewrite bool_decide_eq_true_2.
Qed.

(** *** More on weight fake-quant folding *)

Lemma for_children_same {S} (step : nn → Py.M S nn) cs :
  Forall (λ c, ∀ t, step c.2 t = (Py.Ok c.2, t)) cs →
  ∀ t, for_children step cs t = (Py.Ok cs, t).
Proof.
  induction 1 as [|[name child] cs Hchild _ IH]; intros t; [done|].
  cbn [for_children]. py_unfold. cbn [snd] in Hchild.
  rewrite Hchild. fold (for_children step). by rewrite IH.
Qed.

Lemma traverse_nothing self keep (m : nn) :
  converted m = 0 → ∀ t, traverse self keep m t = (Py.Ok m, t).
Proof.
  induction m as [fq|cls w wfq q ch IH] using nn_module_tree_ind;
    intros Hnone t; [done|].
  cbn [traverse]. py_unfold. rewrite for_children_same; [done|].
  cbn [converted] in Hnone. clear t.
  induction IH as [|[name child] ch Hchild _ IHch]; constructor.
  - cbn [sum_list_with snd] in *. intros t.
    destruct (isinstance _ _); [lia|]. apply Hchild. lia.
  - apply IHch. cbn [sum_list_with] in Hnone. lia.
Qed.

(** X11. A hierarchy in which the traversal meets no instance of
    [SUPPORT_QAT_MODULES] goes through the method with its fake-quant flags
    switched on and nothing else: no weight is touched, no module is
    replaced, torch is asked for nothing. *)
Theorem post_process_without_qat_modules self (m : nn) keep t :
  converted m = 0 →
  post_process_weight_fakequant self m keep t
  = (Py.Ok (apply_enable_fake_quant m), t).
Proof.
  intros Hnone. unfold post_process_weight_fakequant.
  apply traverse_nothing. by rewrite converted_apply_enable_fake_quant.
Qed.

Lemma converted_old_torch (m : nn) : torch_ge_1_13 = false → converted m = 0.
Proof.
  intros Hold.
  induction m as [fq|cls w wfq q ch IH] using nn_module_tree_ind; [done|].
  cbn [converted].
  induction IH as [|[name child] ch Hchild _ IHch]; [done|].
  cbn [sum_list_with snd] in *. rewrite IHch, Hchild.
  unfold SUPPORT_QAT_MODULES. by rewrite Hold.
Qed.

(** X12. Under a torch older than 1.13 both tables are empty, so the method
    converts nothing at all, whatever the hierarchy holds: it only switches
    the fake-quant flags on. *)
Theorem post_process_old_torch self (m : nn) keep t :
  torch_ge_1_13 = false →
  SUPPORT_QAT_MODULES torch_ge_1_13 = [] ∧
  MERGE_BN_MAPPINGS torch_ge_1_13 = [] ∧
  post_process_weight_fakequant self m keep t
  = (Py.Ok (apply_enable_fake_quant m), t).
Proof.
  intros Hold. unfold SUPPORT_QAT_MODULES, MERGE_BN_MAPPINGS.
  rewrite Hold. split; [done|]. split; [done|].
  unfold post_process_weight_fakequant. apply traverse_nothing.
  by apply converted_old_torch.
Qed.

Lemma for_children_names {S} (step : nn → Py.M S nn) cs t cs' t' :
  for_children step cs t = (Py.Ok cs', t') → cs'.*1 = cs.*1.
Proof.
  revert t cs'. induction cs as [|[name child] cs IH]; intros t cs' Hrun.
  - cbn [for_children] in Hrun. py_unfold. by simplify_eq.
  - cbn [for_children] in Hrun. py_unfold.
    destruct (step child t) as [[m'|e] t1]; [|done].
    fold (for_children step) in Hrun.
    destruct (for_children step cs t1) as [[rest|e] t2] eqn:Hrest; [|done].
    simplify_eq. cbn. f_equal. by eapply IH.
Qed.

Lemma traverse_root self keep cls w wfq q ch t m' t' :
  traverse self keep (Module cls w wfq q ch) t = (Py.Ok m', t') →
  ∃ ch', m' = Module cls w wfq q ch' ∧ ch'.*1 = ch.*1.
Proof.
  cbn [traverse]. py_unfold.
  destruct (for_children _ ch t) as [[ch'|e] t1] eqn:Hch; [|done].
  intros ?. simplify_eq. exists ch'. split; [done|].
  by eapply for_children_names.
Qed.

(** X13. The module handed to the method is itself never converted, even
    when it is a QAT module: the traversal looks at children only.  Given
    that [from_float] builds an instance of the class it is called on, the
    method returns, and the root keeps its class and its weight, and has
    children of the same names in the same order. *)
Theorem post_process_keeps_root self (m : nn) keep t :
  (∀ c x, type_of (from_float c x) = c) →
  ∃ m' t',
    post_process_weight_fakequant self m keep t = (Py.Ok m', t ++ t') ∧
    type_of m' = type_of m ∧
    weight_of m' = weight_of m ∧
    (named_children m').*1 = (named_children m).*1.
Proof.
  intros Hfrom. unfold post_process_weight_fakequant.
  destruct (traverse_counts self keep Hfrom (apply_enable_fake_quant m) t)
    as (m' & t' & Hrun & _ & _).
  exists m', t'. split; [done|].
  destruct m as [fq|cls w wfq q ch].
  - cbn [apply_enable_fake_quant traverse] in Hrun. py_unfold. by simplify_eq.
  - cbn [apply_enable_fake_quant] in Hrun.
    apply traverse_root in Hrun as (ch' & -> & Hnames).
    cbn [type_of weight_of named_children].
    split; [done|]. split; [done|].
    rewrite Hnames, <- list_fmap_compose. by apply list_fmap_ext.
Qed.

Lemma isinstance_subclass name base classes :
  isinstance base classes = true →
  isinstance (Subclass name base) classes = true.
Proof.
  unfold isinstance. rewrite !existsb_exists.
  intros (d & Hd & Hsub). exists d. split; [done|].
  cbn [issubclass]. rewrite Hsub. apply orb_true_r.
Qed.

Lemma merge_target_subclass name base :
  merge_target (Subclass name base) = Subclass name base.
Proof.
  unfold merge_target, MERGE_BN_MAPPINGS. by destruct torch_ge_1_13.
Qed.

(** X14. The merge table is consulted with the exact type of the child, the
    test for conversion with [isinstance].  A child whose class is a user
    subclass of a supported class is therefore converted, but never
    merge-mapped: with [keep_fake_quant=True] the class whose [from_float]
    is called, after the child's weight fake-quant and [to_float], is the
    child's own class, also when its base class is a key of the table.
    Nothing is said of what that call returns. *)
Theorem subclass_is_rebuilt_as_itself self name base w wfq q ch t :
  isinstance base (SUPPORT_QAT_MODULES torch_ge_1_13) = true →
  isinstance (Subclass name base) (SUPPORT_QAT_MODULES torch_ge_1_13) = true ∧
  dict_get (MERGE_BN_MAPPINGS torch_ge_1_13) (Subclass name base) = None ∧
  ∃ rest,
    (convert_child self true (Module (Subclass name base) w wfq q ch) t).2
    = t ++ [Weight_fake_quant (Subclass name base) w;
            To_float (Subclass name base);
            From_float (Subclass name base)] ++ rest.
Proof.
  intros Hbase. split; [by apply isinstance_subclass|].
  split.
  { unfold MERGE_BN_MAPPINGS. by destruct torch_ge_1_13. }
  rewrite convert_child_keep, merge_target_subclass.
  destruct (from_float _ _) as [fq|c2 w2 f2 q2 ch2].
  - exists []. by rewrite app_nil_r.
  - by eexists [_].
Qed.

(** X15. The two tables fit together.  Every key and every value of
    [MERGE_BN_MAPPINGS] is listed in [SUPPORT_QAT_MODULES]; no value is
    itself a key, so mapping a class twice is the same as mapping it once;
    and neither table lists a class twice.  A rebuilt module is thus again
    an instance of [SUPPORT_QAT_MODULES]. *)
Theorem merge_table_within_support :
  (∀ cls cls',
     dict_get (MERGE_BN_MAPPINGS torch_ge_1_13) cls = Some cls' →
     cls ∈ SUPPORT_QAT_MODULES torch_ge_1_13 ∧
     cls' ∈ SUPPORT_QAT_MODULES torch_ge_1_13 ∧
     dict_get (MERGE_BN_MAPPINGS torch_ge_1_13) cls' = None) ∧
  (∀ cls, merge_target (merge_target cls) = merge_target cls) ∧
  (∀ cls, isinstance cls (SUPPORT_QAT_MODULES torch_ge_1_13) = true →
          isinstance (merge_target cls) (SUPPORT_QAT_MODULES torch_ge_1_13)
          = true) ∧
  NoDup (SUPPORT_QAT_MODULES torch_ge_1_13) ∧
  NoDup (MERGE_BN_MAPPINGS torch_ge_1_13).*1.
Proof.
  unfold merge_target, MERGE_BN_MAPPINGS, SUPPORT_QAT_MODULES.
  destruct torch_ge_1_13.
  - split; [|split; [|split; [|split]]].
    + intros cls cls'. simpl.
      repeat case_decide; intros; simplify_eq;
        (split; [|split; [|done]]); apply (bool_decide_unpack _); by vm_compute.
    + intros [c| |]; [|done..]. by destruct c.
    + intros [c| |] Hsup; [|done..]. by destruct c.
    + apply (bool_decide_unpack _). by vm_compute.
    + apply (bool_decide_unpack _). by vm_compute.
  - split; [done|]. split; [done|]. split; [done|]. split; constructor.
Qed.

(** *** Counting the calls to torch *)

Lemma tally_app p t1 t2 : tally p (t1 ++ t2) = tally p t1 + tally p t2.
Proof. unfold tally. by rewrite List.filter_app, length_app. Qed.

Lemma for_children_tally p (step : nn → Py.M (list qat_event) nn)
    (count : nn → nat) cs :
  Forall (λ c, ∀ t, ∃ m' t',
            step c.2 t = (Py.Ok m', t ++ t') ∧ tally p t' = count c.2) cs →
  ∀ t, ∃ cs' t',
    for_children step cs t = (Py.Ok cs', t ++ t') ∧
    tally p t' = sum_list_with (λ c, count c.2) cs.
Proof.
  induction 1 as [|[name child] cs Hchild _ IH]; intros t.
  - exists [], []. by rewrite app_nil_r.
  - destruct (Hchild t) as (m' & t1 & Hstep & Hn1).
    destruct (IH (t ++ t1)) as (cs' & t2 & Hrest & Hn2).
    exists ((name, m') :: cs'), (t1 ++ t2). split.
    + cbn [for_children]. py_unfold. cbn [snd] in Hstep.
      rewrite Hstep. fold (for_children step). rewrite Hrest.
      by rewrite app_assoc.
    + rewrite tally_app. cbn [sum_list_with snd] in *. lia.
Qed.

Lemma convert_child_tally self keep child t :
  (∀ c x, type_of (from_float c x) = c) →
  isinstance (type_of child) (SUPPORT_QAT_MODULES torch_ge_1_13) = true →
  ∃ m' t',
    convert_child self keep child t = (Py.Ok m', t ++ t') ∧
    tally is_to_float t' = 1 ∧
    tally is_from_float t' = if keep then 1 else 0.
Proof.
  intros Hfrom Hsup. destruct child as [fq|cls w wfq q ch].
  { cbn [type_of] in Hsup. by rewrite isinstance_plain in Hsup. }
  cbn [type_of] in Hsup. destruct keep.
  - rewrite convert_child_keep.
    destruct (from_float _ _) as [fq|c2 w2 f2 q2 ch2] eqn:Hmade.
    + exfalso. apply (merge_target_not_plain cls "FakeQuantize" Hsup).
      pose proof (f_equal type_of Hmade) as Hty. by rewrite Hfrom in Hty.
    + by eexists _, _.
  - rewrite convert_child_float. by eexists _, _.
Qed.

Lemma traverse_tally self keep p k :
  (∀ child t,
     isinstance (type_of child) (SUPPORT_QAT_MODULES torch_ge_1_13) = true →
     ∃ m' t',
       convert_child self keep child t = (Py.Ok m', t ++ t') ∧ tally p t' = k) →
  ∀ m t, ∃ m' t',
    traverse self keep m t = (Py.Ok m', t ++ t') ∧
    tally p t' = k * converted m.
Proof.
  intros Hconv m.
  induction m as [fq|cls w wfq q ch IH] using nn_module_tree_ind; intros t.
  - exists (FakeQuantize fq), []. split; [by rewrite app_nil_r|].
    cbn [converted]. unfold tally. simpl. lia.
  - destruct (for_children_tally p
      (λ child,
         if isinstance (type_of child) (SUPPORT_QAT_MODULES torch_ge_1_13)
         then convert_child self keep child
         else traverse self keep child)
      (λ child, k *
         (if isinstance (type_of child) (SUPPORT_QAT_MODULES torch_ge_1_13)
          then 1 else converted child)) ch) with t
      as (ch' & t' & Hrun & Hn).
    { eapply Forall_impl; [exact IH|]. intros [name child] IHc t0.
      cbn [snd] in *. destruct (isinstance _ _) eqn:Hsup.
      - destruct (Hconv child t0 Hsup) as (m' & t1 & Hrun & Hn).
        exists m', t1. split; [done|]. lia.
      - destruct (IHc t0) as (m' & t1 & Hrun & Hn).
        exists m', t1. split; [done|]. by rewrite Hn. }
    exists (Module cls w wfq q ch'), t'. split.
    + cbn [traverse]. py_unfold. by rewrite Hrun.
    + rewrite Hn. cbn [converted].
      by rewrite (sum_list_with_scale
        (λ c, if isinstance (type_of c.2) (SUPPORT_QAT_MODULES torch_ge_1_13)
              then 1 else converted c.2)).
Qed.

(** X16. Given that [from_float] builds an instance of the class it is
    called on, the method calls [to_float] exactly once per converted child
    in either mode, and [from_float] exactly once per converted child with
    [keep_fake_quant=True] and never with [keep_fake_quant=False]. *)
Theorem post_process_torch_calls self (m : nn) keep t :
  (∀ c x, type_of (from_float c x) = c) →
  ∃ m' t',
    post_process_weight_fakequant self m keep t = (Py.Ok m', t ++ t') ∧
    tally is_to_float t' = converted m ∧
    tally is_from_float t' = if keep then converted m else 0.
Proof.
  intros Hfrom. unfold post_process_weight_fakequant.
  destruct (traverse_tally self keep is_to_float 1) with
    (apply_enable_fake_quant m) t as (m1 & t1 & Hrun1 & Hn1).
  { intros child t0 Hsup.
    destruct (convert_child_tally self keep child t0 Hfrom Hsup)
      as (m' & t' & ? & ? & _). by exists m', t'. }
  destruct (traverse_tally self keep is_from_float (if keep then 1 else 0)) with
    (apply_enable_fake_quant m) t as (m2 & t2 & Hrun2 & Hn2).
  { intros child t0 Hsup.
    destruct (convert_child_tally self keep child t0 Hfrom Hsup)
      as (m' & t' & ? & _ & ?). by exists m', t'. }
  rewrite Hrun1 in Hrun2. injection Hrun2 as <- Heq.
  apply app_inv_head in Heq. subst t2.
  exists m1, t1. split; [done|].
  rewrite converted_apply_enable_fake_quant in *.
  split; [lia|]. destruct keep; lia.
Qed.

End Coverage.

(** ** Where the replacements end up *)

Section Replacements.

Context `{Collaborators}.

Abbreviation nn := (nn_module Tensor QConfig FakeQuantState).

Lemma dict_get_fmap {K A B} `{EqDecision K} (f : A → B) (d : list (K * A)) k :
  dict_get (map (λ c, (c.1, f c.2)) d) k = f <$> dict_get d k.
Proof.
  induction d as [|[k0 v] d IH]; simpl; [done|].
  by destruct (decide (k = k0)).
Qed.

Lemma named_children_apply_enable_fake_quant (m : nn) :
  named_children (apply_enable_fake_quant m)
  = map (λ c, (c.1, apply_enable_fake_quant c.2)) (named_children m).
Proof. by destruct m. Qed.

Lemma get_submodule_apply_enable_fake_quant (m : nn) path :
  get_submodule (apply_enable_fake_quant m) path
  = apply_enable_fake_quant <$> get_submodule m path.
Proof.
  revert m. induction path as [|name rest IH]; intros m; [done|].
  cbn [get_submodule].
  rewrite named_children_apply_enable_fake_quant, dict_get_fmap.
  destruct (dict_get (named_children m) name) as [child|]; [apply IH|done].
Qed.

Lemma visited_apply_enable_fake_quant (m : nn) path :
  visited (apply_enable_fake_quant m) path = visited m path.
Proof.
  revert m. induction path as [|name rest IH]; intros m; [done|].
  cbn [visited].
  rewrite named_children_apply_enable_fake_quant, dict_get_fmap.
  destruct (dict_get (named_children m) name) as [child|]; [|done].
  cbn [fmap option_fmap option_map].
  by rewrite type_of_apply_enable_fake_quant, IH.
Qed.

(** The loop replaces the child found under a name by what its body
    computed for that child. *)
Lemma for_children_lookup {S} (step : nn → Py.M S nn) cs t cs' t' name child :
  for_children step cs t = (Py.Ok cs', t') →
  dict_get cs name = Some child →
  ∃ t0 t1 child',
    step child t0 = (Py.Ok child', t1) ∧ dict_get cs' name = Some child'.
Proof.
  revert t cs'. induction cs as [|[n c] cs IH]; intros t cs' Hrun Hget;
    [done|].
  cbn [for_children] in Hrun. py_unfold.
  destruct (step c t) as [[c'|e] t1] eqn:Hstep; [|done].
  fold (for_children step) in Hrun.
  destruct (for_children step cs t1) as [[rest|e] t2] eqn:Hrest; [|done].
  simplify_eq. cbn [dict_get] in *.
  destruct (decide (name = n)) as [->|Hne].
  - simplify_eq. by exists t, t1, c'.
  - by eapply IH.
Qed.

Lemma traverse_children self keep cls w wfq q ch t m' t' name child :
  traverse self keep (Module cls w wfq q ch) t = (Py.Ok m', t') →
  dict_get ch name = Some child →
  ∃ t0 t1 child',
    (if isinstance (type_of child) (SUPPORT_QAT_MODULES torch_ge_1_13)
     then convert_child self keep child
     else traverse self keep child) t0 = (Py.Ok child', t1) ∧
    dict_get (named_children m') name = Some child'.
Proof.
  cbn [traverse]. py_unfold.
  destruct (for_children _ ch t) as [[ch'|e] t1] eqn:Hch; [|done].
  intros ? Hget. simplify_eq. cbn [named_children].
  exact (for_children_lookup
           (λ child,
              if isinstance (type_of child) (SUPPORT_QAT_MODULES torch_ge_1_13)
              then convert_child self keep child
              else traverse self keep child)
           ch t ch' t' name child Hch Hget).
Qed.

(** What [traverse] leaves at a position it reaches: the conversion of the
    child that was there. *)
Lemma traverse_replaces self keep path :
  ∀ (m : nn) t m' t' parent name child,
    traverse self keep m t = (Py.Ok m', t') →
    visited m path = true →
    get_submodule m path = Some parent →
    dict_get (named_children parent) name = Some child →
    isinstance (type_of child) (SUPPORT_QAT_MODULES torch_ge_1_13) = true →
    ∃ t0 t1 new,
      convert_child self keep child t0 = (Py.Ok new, t1) ∧
      get_submodule m' (path ++ [name]) = Some new.
Proof.
  induction path as [|step rest IH];
    intros m t m' t' parent name child Hrun Hvis Hsub Hget Hsup.
  - cbn [get_submodule] in Hsub. simplify_eq.
    destruct parent as [fq|cls w wfq q ch]; [done|].
    cbn [named_children] in Hget.
    destruct (traverse_children _ _ _ _ _ _ _ _ _ _ _ _ Hrun Hget)
      as (t0 & t1 & new & Hstep & Hnew).
    rewrite Hsup in Hstep. exists t0, t1, new. split; [done|].
    cbn [app get_submodule]. by rewrite Hnew.
  - cbn [get_submodule visited] in Hsub, Hvis.
    destruct (dict_get (named_children m) step) as [c|] eqn:Hc; [|done].
    apply andb_true_iff in Hvis as [Hnot Hvis].
    apply negb_true_iff in Hnot.
    destruct m as [fq|cls w wfq q ch]; [done|].
    cbn [named_children] in Hc.
    destruct (traverse_children _ _ _ _ _ _ _ _ _ _ _ _ Hrun Hc)
      as (t0 & t1 & c' & Hstep & Hc').
    rewrite Hnot in Hstep.
    destruct (IH c t0 c' t1 parent name child Hstep Hvis Hsub Hget Hsup)
      as (t2 & t3 & new & Hconv & Hnew).
    exists t2, t3, new. split; [done|].
    cbn [app get_submodule]. by rewrite Hc'.
Qed.

Lemma convert_child_merged_result self child cls' t new t' :
  (∀ c x, type_of (from_float c x) = c) →
  dict_get (MERGE_BN_MAPPINGS torch_ge_1_13) (type_of child) = Some cls' →
  convert_child self true child t = (Py.Ok new, t') →
  type_of new = cls' ∧
  ∃ x, named_children new = named_children (from_float cls' x).
Proof.
  intros Hfrom Hentry Hrun. destruct child as [fq|cls w wfq q ch].
  { by apply merge_entry in Hentry as (? & ? & ? & _). }
  cbn [type_of] in Hentry. rewrite convert_child_keep in Hrun.
  assert (merge_target cls = cls') as Htarget
    by (unfold merge_target; by rewrite Hentry).
  rewrite Htarget in Hrun.
  destruct (from_float cls' _) as [fq|c2 w2 f2 q2 ch2] eqn:Hmade; [done|].
  simplify_eq. pose proof (f_equal type_of Hmade) as Hty.
  rewrite Hfrom in Hty. split; [done|].
  eexists. by rewrite Hmade.
Qed.

(** C5. Given two facts about torch's [from_float] (it builds an instance
    of the class it is called on, and the instances it builds of a class
    other than the seven batch-norm carrying ones have no batch-norm
    child): when [post_process_weight_fakequant] runs with
    [keep_fake_quant=True] on a hierarchy in which the traversal reaches a
    module that has, under [name], a child whose type is a key of
    [MERGE_BN_MAPPINGS], the method returns, and what the returned
    hierarchy holds at that place is a module whose type is exactly the
    mapped class and which has no batch-norm child.  The keys are the seven
    batch-norm carrying classes, the values carry none; [ConvBnReLU2d]
    maps to [ConvReLU2d] and [LinearBn1d] to [Linear]. *)
Theorem merged_type_replaces_fused self (m : nn) path parent name child cls' t :
  (∀ c x, type_of (from_float c x) = c) →
  (∀ c x, has_bn c = false →
          has_batchnorm_child (from_float (Qat c) x) = false) →
  visited m path = true →
  get_submodule m path = Some parent →
  dict_get (named_children parent) name = Some child →
  dict_get (MERGE_BN_MAPPINGS torch_ge_1_13) (type_of child) = Some cls' →
  (∃ m' t' new,
     post_process_weight_fakequant self m true t = (Py.Ok m', t ++ t') ∧
     get_submodule m' (path ++ [name]) = Some new ∧
     type_of new = cls' ∧
     has_batchnorm_child new = false) ∧
  (∃ c c', type_of child = Qat c ∧ cls' = Qat c' ∧
           has_bn c = true ∧ has_bn c' = false) ∧
  (torch_ge_1_13 = true →
   (∀ c, has_bn c = true →
         is_Some (dict_get (MERGE_BN_MAPPINGS torch_ge_1_13) (Qat c))) ∧
   dict_get (MERGE_BN_MAPPINGS torch_ge_1_13) (Qat ConvBnReLU2d)
   = Some (Qat ConvReLU2d) ∧
   dict_get (MERGE_BN_MAPPINGS torch_ge_1_13) (Qat LinearBn1d)
   = Some (Qat Linear)).
Proof.
  intros Hfrom Hbn Hvis Hsub Hget Hentry.
  split; [|split; [by apply merge_entry|]].
  - unfold post_process_weight_fakequant.
    destruct (traverse_counts self true Hfrom (apply_enable_fake_quant m) t)
      as (m' & t' & Hrun & _ & _).
    destruct (traverse_replaces self true path (apply_enable_fake_quant m)
                t m' (t ++ t') (apply_enable_fake_quant parent) name
                (apply_enable_fake_quant child) Hrun)
      as (t0 & t1 & new & Hconv & Hnew).
    + by rewrite visited_apply_enable_fake_quant.
    + by rewrite get_submodule_apply_enable_fake_quant, Hsub.
    + by rewrite named_children_apply_enable_fake_quant, dict_get_fmap, Hget.
    + rewrite type_of_apply_enable_fake_quant.
      by eapply merge_entry_supported.
    + exists m', t', new. split; [done|]. split; [done|].
      apply convert_child_merged_result with (cls' := cls') in Hconv
        as (Hty & x & Hch); [|done|by rewrite type_of_apply_enable_fake_quant].
      split; [done|].
      apply merge_entry in Hentry as (c & c' & _ & -> & _ & Hc').
      unfold has_batchnorm_child in *. rewrite Hch. by apply Hbn.
  - intros ->. split; [|done]. intros c Hc. by destruct c.
Qed.

End Replacements.

(** ** The deletion passes on concrete graphs *)

#[local] Existing Instance Demo.collaborators.

(** C1. Run on [x -> fake_quant -> torch.flatten -> output] with
    [torch.flatten] registered in [extra_function_prev_wo_fakequant], the
    method hands that tuple to [del_fakequant_before_method], never to
    [del_fakequant_before_function], and the fake-quant node in front of
    the function call stays; the function-before pass given the same tuple
    removes it.  A string registered under the same key removes the
    fake-quant node in front of a method call of that name. *)
Theorem function_entries_reach_method_pass :
  let key := "extra_function_prev_wo_fakequant" in
  let self := Demo.quantizer {[ key := [Fx.Callable "torch.flatten"] ]} in
  let outcome := del_redundant_fakequant (H := Demo.collaborators) self 0
                   (Demo.memory Demo.function_graph) in
  outcome.1 = Py.Ok 0 ∧
  objects outcome.2 !! 0 = Some Demo.function_graph ∧
  calls outcome.2 !! 2
  = Some (Called_del_fakequant Fx.before Fx.method 0
            [Fx.Callable "torch.flatten"] true) ∧
  Forall (λ e, e ≠ Called_del_fakequant Fx.before Fx.function 0
                     [Fx.Callable "torch.flatten"] true) (calls outcome.2) ∧
  Fx.del_fakequant Fx.before Fx.function [Fx.Callable "torch.flatten"]
    Demo.function_graph
  = [ Fx.Node "x" (Fx.primitive "placeholder") [];
      Fx.Node "flatten" (Fx.call_function "torch.flatten") ["x"];
      Fx.Node "output" (Fx.primitive "output") ["flatten"] ] ∧
  Fx.run (passes (H := Demo.collaborators)
            (Demo.quantizer {[ key := [Fx.Str "flatten"] ]}))
    Demo.method_graph
  = [ Fx.Node "x" (Fx.primitive "placeholder") [];
      Fx.Node "flatten" (Fx.call_method "flatten") ["x"];
      Fx.Node "output" (Fx.primitive "output") ["flatten"] ].
Proof.
  cbv zeta. split; [by vm_compute|]. split; [by vm_compute|].
  split; [by vm_compute|]. split; [|split; by vm_compute].
  vm_compute. repeat constructor; discriminate.
Qed.

(** ** The theorems at work in the concrete world *)

Lemma del_redundant_fakequant_idempotent_witness :
  let self := Demo.quantizer
                {[ "extra_module_prev_wo_fakequant" := [Fx.Type_ (Plain "ReLU6")] ]} in
  let w := Demo.memory Demo.module_graph in
  ∃ w1 w2,
    del_redundant_fakequant (H := Demo.collaborators) self 0 w = (Py.Ok 0, w1) ∧
    objects w1 = <[0 := Fx.run (passes self) Demo.module_graph]> (objects w) ∧
    del_redundant_fakequant self 0 w1 = (Py.Ok 0, w2) ∧
    objects w2 = objects w1.
Proof.
  cbv zeta.
  apply (del_redundant_fakequant_idempotent (H := Demo.collaborators));
    reflexivity.
Defined.

Lemma prepare_order_witness :
  let self := Demo.quantizer
                {[ "extra_module_prev_wo_fakequant" := [Fx.Type_ (Plain "ReLU6")] ]} in
  let w := Demo.memory Demo.module_graph in
  prepare (H := Demo.collaborators) self tt 0 w
  = (Py.Ok 0,
     Store (<[0 := Fx.run (passes self) Demo.module_graph]> (objects w))
       (calls w ++ Called_fuse_fx 0 true (backend_config self)
          :: Called_prepare 0 (qconfig_mapping self) true
               (node_name_to_scope (tracer self)) (example_inputs self)
               (backend_config self)
          :: del_calls self 0)).
Proof.
  intros self w.
  exact (proj1 (proj2 (proj2 (prepare_order (H := Demo.collaborators)
           self tt 0 w) 0 (objects w) eq_refl)
           0 (objects w) Demo.module_graph eq_refl eq_refl)).
Defined.

Lemma construction_mode_check_witness :
  (∃ s self,
     __init__ (H := Demo.collaborators) (true, false) (Some ["ReLU"]) tt ∅ blank
     = (Py.Ok tt, s) ∧
     instance s = Some self ∧
     qconfig (H := Demo.collaborators) self = (true, false) ∧
     extra_redundant_fakequants self = ∅) ∧
  (∃ s,
     __init__ (H := Demo.collaborators) (false, true) (Some ["ReLU"]) tt ∅ blank
     = (Py.Raise Py.AssertionError, s) ∧
     s = set_qconfig (H := Demo.collaborators) (false, true)
           (set_tracer (H := Demo.collaborators) tt blank) ∧
     a_qconfig_mapping s = None ∧
     a_no_observer_modules s = None ∧
     a_backend_config s = None).
Proof.
  split.
  - refine (proj1 (construction_mode_check (H := Demo.collaborators)
              (true, false) (Some ["ReLU"]) tt ∅ tt (true, false)
              eq_refl eq_refl) eq_refl [Plain "ReLU"] tt eq_refl eq_refl).
  - refine (proj2 (construction_mode_check (H := Demo.collaborators)
              (false, true) (Some ["ReLU"]) tt ∅ tt (false, true)
              eq_refl eq_refl) eq_refl).
Defined.


Lemma demo_from_float_type c m :
  type_of (from_float (Collaborators := Demo.collaborators) c m) = c.
Proof. by destruct m. Qed.

Lemma weight_fake_quant_invocations_witness :
  (∀ c m, type_of (from_float (Collaborators := Demo.collaborators) c m) = c) ∧
  ∃ m' t',
    post_process_weight_fakequant (H := Demo.collaborators)
      (Demo.quantizer ∅) Demo.net true [] = (Py.Ok m', [] ++ t') ∧
    weight_fake_quants t' = 2 * converted Demo.net.
Proof.
  split; [apply demo_from_float_type|].
  exact (proj2 (weight_fake_quant_invocations (H := Demo.collaborators)
                  (Demo.quantizer ∅) demo_from_float_type) true Demo.net []).
Defined.

Lemma second_fake_quant_result_discarded_witness :
  let self := Demo.quantizer ∅ in
  let outcome := convert_child (H := Demo.collaborators) self true
                   Demo.conv_bn_relu [] in
  ∃ new t',
    outcome = (Py.Ok new, t') ∧
    weight_of new = Some 7 ∧
    fake_quant_forward (Collaborators := Demo.collaborators) Demo.idle 7
    = (6, {| fake_quant_enabled := false; fq_state := 1 |}).
Proof.
  cbv zeta. eexists _, _. split; [vm_compute; reflexivity|].
  split; [|reflexivity].
  exact (proj1 (second_fake_quant_result_discarded (H := Demo.collaborators)
           (Demo.quantizer ∅) (Qat ConvBnReLU2d) 7 Demo.idle None [] [] _ _
           eq_refl)).
Defined.

(** ** The further theorems at work *)

Lemma construction_returns_iff_witness :
  __init__ (true, false) (Some ["ReLU"]) tt ∅ blank
  = (Py.Ok tt, constructed tt (true, false) (Some ["ReLU"]) [Plain "ReLU"] tt ∅).
Proof.
  apply (proj2 (construction_returns_iff (H := Demo.collaborators)
                  (true, false) (Some ["ReLU"]) tt ∅ _)).
  by exists tt, (true, false), [Plain "ReLU"], tt.
Defined.

Lemma construction_stops_at_first_failure_witness :
  __init__ (H := Faulty.no_tracer) (true, false) (Some ["ReLU"]) tt ∅ blank
  = (Py.Raise (Py.External "KeyError"), blank) ∧
  __init__ (H := Faulty.no_qconfig) (true, false) (Some ["ReLU"]) tt ∅ blank
  = (Py.Raise (Py.External "ValueError"),
     set_tracer (H := Faulty.no_qconfig) tt blank) ∧
  __init__ (H := Faulty.strict_names) (true, false) (Some ["ReLU"; "Relu"])
    tt ∅ blank
  = (Py.Raise (Py.External "ImportError"),
     set_qconfig_mapping (H := Faulty.strict_names)
       (set_global QConfigMapping_new (true, false))
       (set_qconfig (H := Faulty.strict_names) (true, false)
          (set_tracer (H := Faulty.strict_names) tt blank))).
Proof.
  split; [|split].
  - exact (proj1 (construction_stops_at_first_failure (H := Faulty.no_tracer)
                    (true, false) (Some ["ReLU"]) tt ∅) _ eq_refl).
  - exact (proj1 (proj2 (construction_stops_at_first_failure
                    (H := Faulty.no_qconfig)
                    (true, false) (Some ["ReLU"]) tt ∅)) tt _ eq_refl eq_refl).
  - exact (proj2 (proj2 (construction_stops_at_first_failure
                    (H := Faulty.strict_names)
                    (true, false) (Some ["ReLU"; "Relu"]) tt ∅))
             tt (true, false) _ eq_refl eq_refl eq_refl eq_refl eq_refl).
Defined.

Lemma construction_needs_native_backend_witness :
  ∃ s,
    __init__ (H := Faulty.no_backend) (true, false) (Some ["ReLU"]) tt ∅ blank
    = (Py.Raise (Py.KeyError "native"), s) ∧
    a_qconfig_mapping s
    = Some (register_all (H := Faulty.no_backend) [Plain "ReLU"]
              (set_global QConfigMapping_new (true, false))) ∧
    a_backend_config s = None ∧
    a_example_inputs s = None ∧
    a_extra_redundant_fakequants s = None.
Proof.
  exact (construction_needs_native_backend (H := Faulty.no_backend)
           (true, false) (Some ["ReLU"]) tt ∅ tt (true, false) [Plain "ReLU"]
           eq_refl eq_refl eq_refl eq_refl eq_refl).
Defined.

Lemma del_redundant_fakequant_nothing_registered_witness :
  let self := Demo.quantizer default_extra_redundant_fakequants in
  let w := Demo.memory Demo.module_graph in
  del_redundant_fakequant self 0 w
  = (Py.Ok 0, Store (objects w) (calls w ++ del_calls self 0)) ∧
  length (del_calls self 0) = 8.
Proof.
  intros self w.
  apply (del_redundant_fakequant_nothing_registered (H := Demo.collaborators)
           self 0 w Demo.module_graph eq_refl).
  intros key Hkey. unfold recognized_keys in Hkey.
  repeat (apply elem_of_cons in Hkey as [->|Hkey]; [reflexivity|]).
  by apply not_elem_of_nil in Hkey.
Defined.

Lemma single_key_routing_witness :
  let ps := [Fx.Str "flatten"; Fx.Callable "torch.flatten";
             Fx.Type_ (Plain "ReLU6")] in
  let g := Demo.method_graph in
  objects (del_redundant_fakequant
             (Demo.quantizer {[ "extra_module_prev_wo_fakequant" := ps ]}) 0 (Demo.memory g)).2
  = <[0 := Fx.del_fakequant Fx.before Fx.module ps g]> (objects (Demo.memory g)) ∧
  objects (del_redundant_fakequant
             (Demo.quantizer {[ "extra_module_next_wo_fakequant" := ps ]}) 0 (Demo.memory g)).2
  = <[0 := Fx.del_fakequant Fx.after Fx.module ps g]> (objects (Demo.memory g)) ∧
  objects (del_redundant_fakequant
             (Demo.quantizer {[ "extra_function_prev_wo_fakequant" := ps ]}) 0 (Demo.memory g)).2
  = <[0 := Fx.del_fakequant Fx.before Fx.method ps g]> (objects (Demo.memory g)) ∧
  objects (del_redundant_fakequant
             (Demo.quantizer {[ "extra_function_next_wo_fakequant" := ps ]}) 0 (Demo.memory g)).2
  = <[0 := Fx.del_fakequant Fx.after Fx.method ps g]> (objects (Demo.memory g)) ∧
  objects (del_redundant_fakequant
             (Demo.quantizer {[ "extra_method_prev_wo_fakequant" := ps ]}) 0 (Demo.memory g)).2
  = <[0 := Fx.del_fakequant Fx.before Fx.function ps g]> (objects (Demo.memory g)) ∧
  objects (del_redundant_fakequant
             (Demo.quantizer {[ "extra_method_next_wo_fakequant" := ps ]}) 0 (Demo.memory g)).2
  = <[0 := Fx.del_fakequant Fx.after Fx.function ps g]> (objects (Demo.memory g)) ∧
  objects (del_redundant_fakequant
             (Demo.quantizer {[ "extra_op_prev_wo_fakequant" := ps ]}) 0 (Demo.memory g)).2
  = <[0 := Fx.del_fakequant Fx.before Fx.op ps g]> (objects (Demo.memory g)) ∧
  objects (del_redundant_fakequant
             (Demo.quantizer {[ "extra_op_next_wo_fakequant" := ps ]}) 0 (Demo.memory g)).2
  = <[0 := Fx.del_fakequant Fx.after Fx.op ps g]> (objects (Demo.memory g)).
Proof.
  intros ps g. repeat apply conj.
  - exact (proj2 ((proj1 (single_key_routing (H := Demo.collaborators)
        (Demo.quantizer {[ "extra_module_prev_wo_fakequant" := ps ]}) ps g))
      eq_refl 0 (Demo.memory g) eq_refl)).
  - exact (proj2 ((proj1 (proj2 (single_key_routing (H := Demo.collaborators)
        (Demo.quantizer {[ "extra_module_next_wo_fakequant" := ps ]}) ps g)))
      eq_refl 0 (Demo.memory g) eq_refl)).
  - exact (proj2 ((proj1 (proj2 (proj2 (single_key_routing (H := Demo.collaborators)
        (Demo.quantizer {[ "extra_function_prev_wo_fakequant" := ps ]}) ps g))))
      eq_refl 0 (Demo.memory g) eq_refl)).
  - exact (proj2 ((proj1 (proj2 (proj2 (proj2 (single_key_routing (H := Demo.collaborators)
        (Demo.quantizer {[ "extra_function_next_wo_fakequant" := ps ]}) ps g)))))
      eq_refl 0 (Demo.memory g) eq_refl)).
  - exact (proj2 ((proj1 (proj2 (proj2 (proj2 (proj2 (single_key_routing (H := Demo.collaborators)
        (Demo.quantizer {[ "extra_method_prev_wo_fakequant" := ps ]}) ps g))))))
      eq_refl 0 (Demo.memory g) eq_refl)).
  - exact (proj2 ((proj1 (proj2 (proj2 (proj2 (proj2 (proj2 (single_key_routing (H := Demo.collaborators)
        (Demo.quantizer {[ "extra_method_next_wo_fakequant" := ps ]}) ps g)))))))
      eq_refl 0 (Demo.memory g) eq_refl)).
  - exact (proj2 ((proj1 (proj2 (proj2 (proj2 (proj2 (proj2 (proj2 (single_key_routing (H := Demo.collaborators)
        (Demo.quantizer {[ "extra_op_prev_wo_fakequant" := ps ]}) ps g))))))))
      eq_refl 0 (Demo.memory g) eq_refl)).
  - exact (proj2 ((proj2 (proj2 (proj2 (proj2 (proj2 (proj2 (proj2 (single_key_routing (H := Demo.collaborators)
        (Demo.quantizer {[ "extra_op_next_wo_fakequant" := ps ]}) ps g))))))))
      eq_refl 0 (Demo.memory g) eq_refl)).
Defined.

Lemma del_redundant_fakequant_leaves_nothing_redundant_witness :
  let self := Demo.quantizer
                {[ "extra_module_prev_wo_fakequant" := [Fx.Type_ (Plain "ReLU6")] ]} in
  ∃ g',
    objects (del_redundant_fakequant self 0 (Demo.memory Demo.module_graph)).2
      !! 0 = Some g' ∧
    Fx.unchained g' ∧
    ∀ p a, p ∈ passes self → Fx.redundant p.1.1 p.1.2 p.2 g' a = false.
Proof.
  intros self.
  exact (del_redundant_fakequant_leaves_nothing_redundant
           (H := Demo.collaborators) self 0 (Demo.memory Demo.module_graph)
           Demo.module_graph eq_refl eq_refl).
Defined.

Lemma del_redundant_fakequant_only_removes_witness :
  let self := Demo.quantizer
                {[ "extra_module_prev_wo_fakequant" := [Fx.Type_ (Plain "ReLU6")] ]} in
  ∃ g',
    objects (del_redundant_fakequant self 0 (Demo.memory Demo.module_graph)).2
      !! 0 = Some g' ∧
    outline g' `sublist_of` outline Demo.module_graph ∧
    keeps_calls (outline g') = keeps_calls (outline Demo.module_graph).
Proof.
  intros self.
  destruct (del_redundant_fakequant_only_removes (H := Demo.collaborators)
              self 0 (Demo.memory Demo.module_graph) Demo.module_graph eq_refl)
    as (g' & Hg' & Hsub & Hkeep).
  exists g'. split; [exact Hg'|]. split; [exact Hsub|].
  apply Hkeep. apply (bool_decide_unpack _). by vm_compute.
Defined.

Lemma prepare_propagates_failures_witness :
  prepare (H := Faulty.no_fuse)
    (Faulty.quantizer true true [] {[ "native" := tt ]} false true true ∅)
    tt 0 (Store (H := Faulty.no_fuse) {[ 0 := Demo.module_graph ]} [])
  = (Py.Raise (Py.External "fuse"),
     Store (H := Faulty.no_fuse) {[ 0 := Demo.module_graph ]}
       [Called_fuse_fx (H := Faulty.no_fuse) 0 true tt]) ∧
  prepare (H := Faulty.no_observe)
    (Faulty.quantizer true true [] {[ "native" := tt ]} true false true ∅)
    tt 0 (Store (H := Faulty.no_observe) {[ 0 := Demo.module_graph ]} [])
  = (Py.Raise (Py.External "observe"),
     Store (H := Faulty.no_observe) {[ 0 := Demo.module_graph ]}
       [Called_fuse_fx (H := Faulty.no_observe) 0 true tt;
        Called_prepare (H := Faulty.no_observe) 0
          (set_global QConfigMapping_new (true, false)) true tt [0] tt]).
Proof.
  split.
  - exact (proj1 (prepare_propagates_failures (H := Faulty.no_fuse)
             (Faulty.quantizer true true [] {[ "native" := tt ]} false true true ∅)
             tt 0 (Store (H := Faulty.no_fuse) {[ 0 := Demo.module_graph ]} []))
             _ _ eq_refl).
  - exact (proj2 (prepare_propagates_failures (H := Faulty.no_observe)
             (Faulty.quantizer true true [] {[ "native" := tt ]} true false true ∅)
             tt 0 (Store (H := Faulty.no_observe) {[ 0 := Demo.module_graph ]} []))
             0 _ _ _ eq_refl eq_refl).
Defined.

Lemma prepare_default_returns_observed_graph_witness :
  let self := Demo.quantizer default_extra_redundant_fakequants in
  let w := Demo.memory Demo.module_graph in
  (prepare self tt 0 w).1 = Py.Ok 0 ∧
  objects (prepare self tt 0 w).2 = objects w.
Proof.
  intros self w.
  apply (prepare_default_returns_observed_graph (H := Demo.collaborators)
           self tt 0 w 0 (objects w) 0 (objects w) Demo.module_graph);
    try reflexivity.
  intros key Hkey. unfold recognized_keys in Hkey.
  repeat (apply elem_of_cons in Hkey as [->|Hkey]; [reflexivity|]).
  by apply not_elem_of_nil in Hkey.
Defined.

Lemma no_observer_types_reach_observer_insertion_witness :
  ∃ self qc mods,
    instance (constructed tt (true, false) (Some ["ReLU"]) [Plain "ReLU"] tt ∅)
    = Some self ∧
    QConfigHander (true, false) = Py.Ok qc ∧
    resolves (Some ["ReLU"]) mods ∧
    BackendConfigs !! "native" = Some (backend_config self) ∧
    (_fuse_fx 0 true (backend_config self)
       (objects (Demo.memory Demo.module_graph))
     = (Py.Ok 0, objects (Demo.memory Demo.module_graph)) →
     ∃ m rest,
       calls (prepare self tt 0 (Demo.memory Demo.module_graph)).2
       = calls (Demo.memory Demo.module_graph)
           ++ Called_fuse_fx 0 true (backend_config self)
           :: Called_prepare 0 m true (node_name_to_scope (tracer self))
                [randn [1; 3; 224; 224]] (backend_config self)
           :: rest ∧
       global_qconfig m = Some (convert qc) ∧
       ∀ t, t ∈ mods → qconfig_of m t = None).
Proof.
  exact (no_observer_types_reach_observer_insertion (H := Demo.collaborators)
           (true, false) (Some ["ReLU"]) tt ∅ _ tt 0
           (Demo.memory Demo.module_graph) 0
           (objects (Demo.memory Demo.module_graph)) eq_refl).
Defined.

Lemma post_process_without_qat_modules_witness :
  post_process_weight_fakequant (Demo.quantizer ∅) Faulty.plain_net true []
  = (Py.Ok (apply_enable_fake_quant Faulty.plain_net), []).
Proof.
  exact (post_process_without_qat_modules (H := Demo.collaborators)
           (Demo.quantizer ∅) Faulty.plain_net true [] eq_refl).
Defined.

Lemma post_process_old_torch_witness :
  SUPPORT_QAT_MODULES (torch_ge_1_13 (Collaborators := Faulty.old_torch)) = [] ∧
  MERGE_BN_MAPPINGS (torch_ge_1_13 (Collaborators := Faulty.old_torch)) = [] ∧
  post_process_weight_fakequant (H := Faulty.old_torch)
    (Faulty.quantizer true true [] {[ "native" := tt ]} true true false ∅)
    Demo.net true []
  = (Py.Ok (apply_enable_fake_quant (H := Faulty.old_torch) Demo.net), []).
Proof.
  exact (post_process_old_torch (H := Faulty.old_torch)
           (Faulty.quantizer true true [] {[ "native" := tt ]} true true false ∅)
           Demo.net true [] eq_refl).
Defined.

Lemma post_process_keeps_root_witness :
  ∃ m' t',
    post_process_weight_fakequant (Demo.quantizer ∅) Demo.conv_bn_relu true []
    = (Py.Ok m', [] ++ t') ∧
    type_of m' = type_of Demo.conv_bn_relu ∧
    weight_of m' = weight_of Demo.conv_bn_relu ∧
    (named_children m').*1 = (named_children Demo.conv_bn_relu).*1.
Proof.
  exact (post_process_keeps_root (H := Demo.collaborators)
           (Demo.quantizer ∅) Demo.conv_bn_relu true [] demo_from_float_type).
Defined.

Lemma subclass_is_rebuilt_as_itself_witness :
  isinstance (Subclass "MyConvBn" (Qat ConvBn2d))
    (SUPPORT_QAT_MODULES torch_ge_1_13) = true ∧
  dict_get (MERGE_BN_MAPPINGS torch_ge_1_13) (Subclass "MyConvBn" (Qat ConvBn2d))
  = None ∧
  ∃ rest,
    (convert_child (Demo.quantizer ∅) true Faulty.my_conv_bn []).2
    = [] ++ [Weight_fake_quant (Subclass "MyConvBn" (Qat ConvBn2d)) 9;
             To_float (Subclass "MyConvBn" (Qat ConvBn2d));
             From_float (Subclass "MyConvBn" (Qat ConvBn2d))] ++ rest.
Proof.
  exact (subclass_is_rebuilt_as_itself (H := Demo.collaborators)
           (Demo.quantizer ∅) "MyConvBn" (Qat ConvBn2d) 9
           {| fake_quant_enabled := false; fq_state := 0 |} None [] []
           eq_refl).
Defined.

Lemma merge_table_within_support_witness :
  Qat ConvBn2d ∈ SUPPORT_QAT_MODULES torch_ge_1_13 ∧
  Qat Conv2d ∈ SUPPORT_QAT_MODULES torch_ge_1_13 ∧
  dict_get (MERGE_BN_MAPPINGS torch_ge_1_13) (Qat Conv2d) = None.
Proof.
  exact (proj1 (merge_table_within_support (H := Demo.collaborators))
           (Qat ConvBn2d) (Qat Conv2d) eq_refl).
Defined.

Lemma post_process_torch_calls_witness :
  ∃ m' t',
    post_process_weight_fakequant (Demo.quantizer ∅) Demo.net false []
    = (Py.Ok m', [] ++ t') ∧
    tally is_to_float t' = converted Demo.net ∧
    tally is_from_float t' = 0.
Proof.
  exact (post_process_torch_calls (H := Demo.collaborators)
           (Demo.quantizer ∅) Demo.net false [] demo_from_float_type).
Defined.

(** ** The third world at work *)

Lemma torchlike_from_float_type c x :
  type_of (from_float (Collaborators := Torchlike.collaborators) c x) = c.
Proof. by destruct x. Qed.

Lemma torchlike_from_float_children c x :
  has_bn c = false →
  has_batchnorm_child
    (from_float (Collaborators := Torchlike.collaborators) (Qat c) x) = false.
Proof. intros Hc. destruct x; cbn; by rewrite Hc. Qed.

Lemma merged_type_replaces_fused_witness :
  has_batchnorm_child Torchlike.conv_bn = true ∧
  ∃ m' t' new,
    post_process_weight_fakequant (H := Torchlike.collaborators)
      Torchlike.quantizer Torchlike.net true [] = (Py.Ok m', [] ++ t') ∧
    get_submodule m' (["features"] ++ ["conv"]) = Some new ∧
    type_of new = Qat Conv2d ∧
    has_batchnorm_child new = false.
Proof.
  split; [reflexivity|].
  exact (proj1 (merged_type_replaces_fused (H := Torchlike.collaborators)
           Torchlike.quantizer Torchlike.net ["features"]
           (Module (Plain "Sequential") 0 Torchlike.idle None
              [("relu", Module (Plain "ReLU") 0 Torchlike.idle None []);
               ("conv", Torchlike.conv_bn)])
           "conv" Torchlike.conv_bn (Qat Conv2d) []
           torchlike_from_float_type torchlike_from_float_children
           eq_refl eq_refl eq_refl eq_refl)).
Defined.

